(** * LangChainApifyAssistant: a shallow embedding of [src/main.py]

    The assistant chains two remote collaborators: a chat model
    ([self.llm.invoke]) and an image-search actor run through the Apify
    client.  The embedding keeps the Python data as it is at run time
    (strings of code points, JSON-like values, dictionaries in insertion
    order) and threads the collaborators through a state-and-exception
    monad that records every remote call and every printed line. *)

From Stdlib Require Import List ZArith NArith Bool Lia.
From Stdlib Require Import Ascii String DecimalString.
From Stdlib Require Import SpecFloat.
Import ListNotations.

Set Implicit Arguments.
Set Warnings "-register-all".
Open Scope list_scope.

(* ================================================================== *)
(** ** Python strings *)

(** A Python [str] is a sequence of Unicode code points. *)
Definition pystr := list N.

(** ASCII literals of the source, read as code points. *)
Definition u (s : string) : pystr :=
  map N_of_ascii (list_ascii_of_string s).

(** Characters of the source literals that cannot be written inside a
    literal here, or that lie outside ASCII. *)
Definition nl : pystr := [10%N].                 (* "\n" *)
Definition dq : pystr := [34%N].                 (* the double quote *)
Definition bullet : pystr := [8226%N].           (* U+2022 *)
Definition emoji_check : pystr := [9989%N].      (* U+2705 *)
Definition emoji_search : pystr := [128269%N].   (* U+1F50D *)
Definition emoji_brain : pystr := [129504%N].    (* U+1F9E0 *)
Definition emoji_rocket : pystr := [128640%N].   (* U+1F680 *)
Definition emoji_memo : pystr := [128221%N].     (* U+1F4DD *)

Fixpoint str_eqb (a b : pystr) : bool :=
  match a, b with
  | [], [] => true
  | x :: a', y :: b' => N.eqb x y && str_eqb a' b'
  | _, _ => false
  end.

(** [needle] is a prefix of [hay]. *)
Fixpoint startswith (needle hay : pystr) : bool :=
  match needle, hay with
  | [], _ => true
  | x :: n', y :: h' => N.eqb x y && startswith n' h'
  | _ :: _, [] => false
  end.

(** [needle in hay] on strings: substring search. *)
Fixpoint py_in (needle hay : pystr) : bool :=
  startswith needle hay ||
  match hay with
  | [] => false
  | _ :: h' => py_in needle h'
  end.

Definition is_ascii (c : N) : bool := (c <? 128)%N.
Definition is_ascii_lower (c : N) : bool := (97 <=? c)%N && (c <=? 122)%N.
Definition is_ascii_upper (c : N) : bool := (65 <=? c)%N && (c <=? 90)%N.
Definition is_ascii_letter (c : N) : bool := is_ascii_lower c || is_ascii_upper c.

Definition ascii_to_upper (c : N) : N := if is_ascii_lower c then (c - 32)%N else c.
Definition ascii_to_lower (c : N) : N := if is_ascii_upper c then (c + 32)%N else c.

(** [str(n)] for an [int]. *)
Definition str_of_int (z : Z) : pystr := u (NilZero.string_of_int (Z.to_int z)).

(* ================================================================== *)
(** ** Python values

    The dataset items of the image-search actor are JSON documents, so
    the values that reach the assistant are [None], booleans, integers,
    floats, strings, lists and dictionaries with string keys. *)

Inductive pyval : Type :=
| VNone
| VBool (b : bool)
| VInt (z : Z)
| VFloat (f : spec_float)
| VStr (s : pystr)
| VList (l : list pyval)
| VDict (d : list (pystr * pyval)).

(** A [dict] keeps its items in insertion order. *)
Definition pydict := list (pystr * pyval).

Inductive exn : Type :=
| AttributeError
| TypeError
| KeyError
| UpstreamError (msg : pystr).

Inductive outcome (A : Type) : Type :=
| Ok (a : A)
| Exc (e : exn).
Arguments Ok {A} a.
Arguments Exc {A} e.

Fixpoint dict_lookup (k : pystr) (d : pydict) : option pyval :=
  match d with
  | [] => None
  | (k', v) :: d' => if str_eqb k k' then Some v else dict_lookup k d'
  end.

(** [d.get(k, default)]. *)
Definition dict_get (d : pydict) (k : pystr) (default : pyval) : pyval :=
  match dict_lookup k d with
  | Some v => v
  | None => default
  end.

(** [x.get(k, default)] on an arbitrary value: only a [dict] has [get]. *)
Definition py_get (x : pyval) (k : pystr) (default : pyval) : outcome pyval :=
  match x with
  | VDict d => Ok (dict_get d k default)
  | _ => Exc AttributeError
  end.

(** [x[k]] for a string key [k]. *)
Definition py_subscript (x : pyval) (k : pystr) : outcome pyval :=
  match x with
  | VDict d => match dict_lookup k d with
               | Some v => Ok v
               | None => Exc KeyError
               end
  | _ => Exc TypeError
  end.

Definition float_is_zero (f : spec_float) : bool :=
  match f with
  | S754_zero _ => true
  | _ => false
  end.

Definition nonempty {A : Type} (l : list A) : bool :=
  match l with
  | [] => false
  | _ :: _ => true
  end.

(** [bool(x)]. *)
Definition truthy (x : pyval) : bool :=
  match x with
  | VNone => false
  | VBool b => b
  | VInt z => negb (z =? 0)%Z
  | VFloat f => negb (float_is_zero f)
  | VStr s => nonempty s
  | VList l => nonempty l
  | VDict d => nonempty d
  end.

(** [len(x)]. *)
Definition py_len (x : pyval) : outcome Z :=
  match x with
  | VStr s => Ok (Z.of_nat (List.length s))
  | VList l => Ok (Z.of_nat (List.length l))
  | VDict d => Ok (Z.of_nat (List.length d))
  | _ => Exc TypeError
  end.

(** The items a [for] loop visits: the elements of a list, the
    one-character strings of a string, the keys of a dictionary. *)
Definition py_iter (x : pyval) : outcome (list pyval) :=
  match x with
  | VList l => Ok l
  | VStr s => Ok (map (fun c => VStr [c]) s)
  | VDict d => Ok (map (fun kv => VStr (fst kv)) d)
  | _ => Exc TypeError
  end.

(** [x[:5]].  A dictionary cannot be sliced ([TypeError]; from Python
    3.12 on the slice is looked up as a key and the failure is a
    [KeyError]). *)
Definition py_slice5 (x : pyval) : outcome pyval :=
  match x with
  | VList l => Ok (VList (firstn 5 l))
  | VStr s => Ok (VStr (firstn 5 s))
  | _ => Exc TypeError
  end.

Definition obind {A B : Type} (c : outcome A) (k : A -> outcome B) : outcome B :=
  match c with
  | Ok a => k a
  | Exc e => Exc e
  end.

Definition omap {A B : Type} (f : A -> B) (c : outcome A) : outcome B :=
  match c with
  | Ok a => Ok (f a)
  | Exc e => Exc e
  end.

Notation "'let?' x ':=' c 'in' k" := (obind c (fun x => k))
  (at level 10, x name, c at level 100, k at level 200).

(* ================================================================== *)
(** ** The assistant *)

(** The reply object of the chat model; the assistant reads only its
    [content]. *)
Record AIMessage : Type := { content : pystr }.

(** The [run_input] dictionary handed to the actor. *)
Record run_input : Type := { ri_query : pystr; ri_maxResults : Z }.

(** A remote call, as the collaborators see it. *)
Inductive call : Type :=
| CInvoke (prompt : pystr)
| CActorCall (actor_id : pystr) (input : run_input)
| CIterateItems (dataset_id : pyval).

(** The dictionary returned by [process_query]. *)
Record ProcessedResult : Type := {
  query : pystr;
  text_response : pystr;
  images : pyval;
  total_images : pyval;
  perspectives : pyval;
  image_aware_response : bool
}.

Definition ACTOR_ID : pystr := u "loongnian714/ai-query-based-image-finder".

(** What a run of the assistant has done so far, in a world of type
    [World]. *)
Record State (World : Type) : Type := {
  world : World;
  calls : list call;       (* remote calls made so far, oldest first *)
  stdout : list pystr      (* arguments of [print], oldest first *)
}.

(* ================================================================== *)
(** ** Test doubles

    Deterministic stand-ins for the two collaborators and for the
    runtime outside ASCII, used to run the assistant on concrete
    queries. *)

Module Double.

Definition World : Type := unit.

Definition upper (c : N) : pystr := [c].
Definition title (s : pystr) : pystr := s.
Definition repr (_ : pyval) : pystr := u "<object>".

(** A chat model that answers the classification question with
    [verdict] and echoes every other prompt. *)
Definition llm (verdict : pystr) (prompt : pystr) (w : World)
  : outcome AIMessage * World :=
  (Ok {| content := if py_in (u "Answer only") prompt then verdict else prompt |}, w).

(** A chat model that cannot be reached. *)
Definition llm_down (prompt : pystr) (w : World) : outcome AIMessage * World :=
  (Exc (UpstreamError (u "llm unavailable")), w).


Definition run : pyval := VDict [(u "defaultDatasetId", VStr (u "ds1"))].

Definition actor (actor_id : pystr) (input : run_input) (w : World)
  : outcome pyval * World := (Ok run, w).

Definition actor_down (actor_id : pystr) (input : run_input) (w : World)
  : outcome pyval * World := (Exc (UpstreamError (u "actor failed")), w).

Definition dataset (items : list pydict) (dataset_id : pyval) (w : World)
  : outcome (list pydict) * World := (Ok items, w).

Definition dataset_down (dataset_id : pyval) (w : World)
  : outcome (list pydict) * World := (Exc (UpstreamError (u "dataset failed")), w).

Definition tesla : pystr := u "Tesla Model Y interior".

(** Nothing called, nothing printed. *)
Definition s0 : State World := {| world := tt; calls := []; stdout := [] |}.

Definition image_record (title : pystr) : pydict :=
  [(u "title", VStr title); (u "display_link", VStr (u "example.com"));
   (u "link", VStr (u "https://example.com/a.jpg"));
   (u "width", VInt 800); (u "height", VInt 600);
   (u "perspective_query", VStr (u "tesla dashboard"))].

Definition image (title : pystr) : pyval := VDict (image_record title).

Definition perspective (kind : pystr) (found : Z) : pyval :=
  VDict [(u "perspective_type", VStr kind); (u "query", VStr (u "tesla dashboard"));
         (u "images_found", VInt found)].

(** A search result that reports seven results from two perspectives
    and carries one image. *)
Definition seven : pydict :=
  [(u "images", VList [image (u "Dashboard")]);
   (u "search_perspectives", VList [perspective (u "close_up") 4; perspective (u "wide") 3]);
   (u "total_results", VInt 7);
   (u "agent_response", VStr (u "done"))].

(** A search result with twelve images, the last eleven of them bare. *)
Definition twelve : pydict :=
  [(u "images", VList (image (u "Dashboard") :: repeat (VDict []) 11));
   (u "search_perspectives", VList [VDict []]);
   (u "total_results", VInt 12)].

(** A search result without images. *)
Definition summary_only : pydict := [(u "agent_response", VStr (u "nothing found"))].

(** A chat model that repeats what it was sent. *)
Definition parrot (prompt : pystr) (w : World) : outcome AIMessage * World :=
  (Ok {| content := prompt |}, w).

(** The console: Enter is pressed at once. *)
Definition enter (prompt : pystr) (w : World) : outcome pystr * World := (Ok [], w).

(** An actor call that hands back no run. *)
Definition actor_none (actor_id : pystr) (input : run_input) (w : World)
  : outcome pyval * World := (Ok VNone, w).

(** [twelve] with other things than records after the fifth image. *)
Definition twelve_odd : pydict :=
  [(u "images", VList (image (u "Dashboard") :: repeat (VDict []) 4 ++ repeat VNone 7));
   (u "search_perspectives", VList [VDict []]);
   (u "total_results", VInt 12)].

(** A search result whose second image is a string. *)
Definition broken : pydict :=
  [(u "images", VList [image (u "Dashboard"); VStr (u "oops")])].

(** A search result whose [images] is a count. *)
Definition images_count : pydict := [(u "images", VInt 3)].

(** A search result whose only perspective has a null type. *)
Definition null_type : pydict :=
  [(u "images", VList [VDict []]);
   (u "search_perspectives", VList [VDict [(u "perspective_type", VNone)]])].

(** A search result without images whose perspectives are null. *)
Definition null_perspectives : pydict :=
  [(u "total_results", VInt 0); (u "search_perspectives", VNone)].

(** A result with four images, and one whose image has a number for a
    title. *)
Definition four_images : ProcessedResult :=
  {| query := tesla;
     text_response := u "An answer.";
     images := VList (map VDict (image_record (u "Dashboard") :: repeat [] 3));
     total_images := VInt 4;
     perspectives := VList (map VDict [[(u "perspective_type", VStr (u "close_up"))]]);
     image_aware_response := true |}.

Definition numbered_title : ProcessedResult :=
  {| query := tesla;
     text_response := u "An answer.";
     images := VList [VDict [(u "title", VInt 42)]];
     total_images := VInt 1;
     perspectives := VList [];
     image_aware_response := true |}.

End Double.

Section Assistant.

(** *** The Python runtime outside ASCII

    [str.upper] maps every code point on its own; outside ASCII the
    mapping is the Unicode database's.  [str.title] outside ASCII and
    the [str()] of floats, lists and dictionaries are the runtime's as
    well. *)
Variable unicode_upper : N -> pystr.
Variable unicode_title : pystr -> pystr.
Variable repr_other : pyval -> pystr.

Definition upper_char (c : N) : pystr :=
  if is_ascii c then [ascii_to_upper c] else unicode_upper c.

(** [s.upper()]. *)
Definition str_upper (s : pystr) : pystr := flat_map upper_char s.

(** Title-casing of an ASCII string: a letter is upper-cased unless
    the character before it is a letter, in which case it is
    lower-cased. *)
Fixpoint title_ascii (previous_is_cased : bool) (s : pystr) : pystr :=
  match s with
  | [] => []
  | c :: s' =>
      (if previous_is_cased then ascii_to_lower c else ascii_to_upper c)
        :: title_ascii (is_ascii_letter c) s'
  end.

(** [s.title()]. *)
Definition str_title (s : pystr) : pystr :=
  if forallb is_ascii s then title_ascii false s else unicode_title s.

(** [x.title()] on an arbitrary value: only a [str] has [title]. *)
Definition py_title (x : pyval) : outcome pystr :=
  match x with
  | VStr s => Ok (str_title s)
  | _ => Exc AttributeError
  end.

(** What an f-string puts for [{x}]: [str(x)]. *)
Definition py_str (x : pyval) : pystr :=
  match x with
  | VNone => u "None"
  | VBool true => u "True"
  | VBool false => u "False"
  | VInt z => str_of_int z
  | VStr s => s
  | _ => repr_other x
  end.

(** *** The collaborators

    Each remote operation answers or raises, and may change the
    world it runs in. *)
Variable World : Type.
Variable llm_invoke : pystr -> World -> outcome AIMessage * World.
Variable actor_call : pystr -> run_input -> World -> outcome pyval * World.
Variable dataset_iterate_items : pyval -> World -> outcome (list pydict) * World.

Definition M (A : Type) : Type := State World -> outcome A * State World.

Definition ret {A : Type} (a : A) : M A := fun s => (Ok a, s).

Definition bind {A B : Type} (c : M A) (k : A -> M B) : M B :=
  fun s => match c s with
           | (Ok a, s') => k a s'
           | (Exc e, s') => (Exc e, s')
           end.

Definition lift {A : Type} (c : outcome A) : M A := fun s => (c, s).

(** The state after some more lines went to the console. *)
Definition printed (lines : list pystr) (s : State World) : State World :=
  {| world := world s; calls := calls s; stdout := stdout s ++ lines |}.

(** The state after the remote calls [cs], which left the world [w]. *)
Definition called (cs : list call) (w : World) (s : State World) : State World :=
  {| world := w; calls := calls s ++ cs; stdout := stdout s |}.

Definition print (line : pystr) : M unit :=
  fun s => (Ok tt, printed [line] s).

Definition remote {A : Type} (c : call) (op : World -> outcome A * World) : M A :=
  fun s => let (r, w') := op (world s) in (r, called [c] w' s).

(** [self.llm.invoke(prompt)]. *)
Definition invoke (prompt : pystr) : M AIMessage :=
  remote (CInvoke prompt) (llm_invoke prompt).

Notation "x <- c ;; k" := (bind c (fun x => k))
  (at level 61, c at next level, right associativity).
Notation "c ;;; k" := (bind c (fun _ => k))
  (at level 61, right associativity).

(** *** [should_search_images] *)

Definition classify_prompt (q : pystr) : pystr :=
  nl ++ u "Does this query need visual images to answer properly?" ++ nl
     ++ u "Query: " ++ dq ++ q ++ dq ++ nl
     ++ nl
     ++ u "Answer only " ++ dq ++ u "YES" ++ dq ++ u " or " ++ dq ++ u "NO" ++ dq ++ nl.

Definition should_search_images (q : pystr) : M bool :=
  let prompt := classify_prompt q in
  response <- invoke prompt ;;
  ret (py_in (u "YES") (str_upper (content response))).

(** *** [get_text_response_with_images] *)

Definition plain_prompt (q : pystr) : pystr :=
  u "Answer this query comprehensively: '" ++ q ++ u "'".

(** One turn of [for p in perspectives], appending to [image_context]. *)
Definition perspective_step (image_context : pystr) (p : pyval) : outcome pystr :=
  let? ptype := py_get p (u "perspective_type") (VStr (u "Unknown")) in
  let? titled := py_title ptype in
  let? pquery := py_get p (u "query") (VStr (u "N/A")) in
  let? found := py_get p (u "images_found") (VInt 0) in
  Ok (image_context ++ bullet ++ u " " ++ titled ++ u ": '" ++ py_str pquery
        ++ u "' (" ++ py_str found ++ u " images)" ++ nl).

Fixpoint perspectives_loop (image_context : pystr) (ps : list pyval) : outcome pystr :=
  match ps with
  | [] => Ok image_context
  | p :: ps' =>
      let? image_context := perspective_step image_context p in
      perspectives_loop image_context ps'
  end.

(** One turn of [for i, img in enumerate(images[:5])]: four
    [image_context += ...] in a row. *)
Definition image_step (image_context : pystr) (i : Z) (img : pyval) : outcome pystr :=
  let? title := py_get img (u "title") (VStr (u "Untitled")) in
  let image_context :=
    image_context ++ str_of_int (i + 1) ++ u ". Title: " ++ py_str title ++ nl in
  let? display_link := py_get img (u "display_link") (VStr (u "N/A")) in
  let image_context :=
    image_context ++ u "   Source: " ++ py_str display_link ++ nl in
  let? perspective_query := py_get img (u "perspective_query") (VStr (u "N/A")) in
  let image_context :=
    image_context ++ u "   Perspective: " ++ py_str perspective_query ++ nl in
  let? width := py_get img (u "width") (VStr (u "N/A")) in
  let? height := py_get img (u "height") (VStr (u "N/A")) in
  Ok (image_context ++ u "   Size: " ++ py_str width ++ u "x" ++ py_str height ++ nl ++ nl).

Fixpoint images_loop (image_context : pystr) (i : Z) (imgs : list pyval) : outcome pystr :=
  match imgs with
  | [] => Ok image_context
  | img :: imgs' =>
      let? image_context := image_step image_context i img in
      images_loop image_context (i + 1) imgs'
  end.

Definition context_header (n_images n_perspectives : Z) : pystr :=
  nl ++ u "I found " ++ str_of_int n_images ++ u " relevant images from "
     ++ str_of_int n_perspectives ++ u " different search perspectives:" ++ nl
     ++ nl
     ++ u "SEARCH PERSPECTIVES USED:" ++ nl.

Definition details_header : pystr := nl ++ u "IMAGE DETAILS FOUND:" ++ nl.

Definition rich_prompt (q image_context : pystr) : pystr :=
  nl ++ u "Answer this query comprehensively: " ++ dq ++ q ++ dq ++ nl
     ++ nl
     ++ u "IMPORTANT: I have found relevant images that provide visual context for this topic. Use this image information to enhance your response:" ++ nl
     ++ nl
     ++ image_context ++ nl
     ++ nl
     ++ u "Guidelines:" ++ nl
     ++ u "1. Reference the specific images found and how they relate to your explanation" ++ nl
     ++ u "2. Mention the different perspectives covered by the image search" ++ nl
     ++ u "3. Explain how the visual content complements your text response" ++ nl
     ++ u "4. Provide a comprehensive answer that combines your knowledge with the visual evidence found" ++ nl
     ++ nl
     ++ u "Provide a detailed response that integrates both textual explanation and references to the visual content discovered." ++ nl.

(** The [else] branch up to the assignment of [image_context]. *)
Definition image_context_of (images_data : pydict) : outcome pystr :=
  let imgs := dict_get images_data (u "images") (VList []) in
  let persps := dict_get images_data (u "search_perspectives") (VList []) in
  let? n_images := py_len imgs in
  let? n_perspectives := py_len persps in
  let image_context := context_header n_images n_perspectives in
  let? ps := py_iter persps in
  let? image_context := perspectives_loop image_context ps in
  let image_context := image_context ++ details_header in
  let? first5 := py_slice5 imgs in
  let? items := py_iter first5 in
  images_loop image_context 0 items.

(** The condition of the [if]: [not images_data or not
    images_data.get('images')].  [None] stands for Python's [None]. *)
Definition no_images (images_data : option pydict) : bool :=
  match images_data with
  | None => true
  | Some d => negb (nonempty d) || negb (truthy (dict_get d (u "images") VNone))
  end.

(** The prompt the function builds before it calls the model. *)
Definition compose_prompt (q : pystr) (images_data : option pydict) : outcome pystr :=
  if no_images images_data then Ok (plain_prompt q)
  else match images_data with
       | Some d => let? image_context := image_context_of d in
                   Ok (rich_prompt q image_context)
       | None => Exc AttributeError
       end.

Definition get_text_response_with_images (q : pystr) (images_data : option pydict)
  : M pystr :=
  prompt <- lift (compose_prompt q images_data) ;;
  response <- invoke prompt ;;
  ret (content response).

(** *** [search_images] *)

Definition search_images (q : pystr) (max_results : Z) : M pydict :=
  run <- remote (CActorCall ACTOR_ID {| ri_query := q; ri_maxResults := max_results |})
           (actor_call ACTOR_ID {| ri_query := q; ri_maxResults := max_results |}) ;;
  dataset_id <- lift (py_subscript run (u "defaultDatasetId")) ;;
  results <- remote (CIterateItems dataset_id) (dataset_iterate_items dataset_id) ;;
  ret (match results with
       | first :: _ => first
       | [] => []
       end).

(** *** [process_query] *)

(** The lines [process_query] prints. *)
Definition msg_processing (q : pystr) : pystr :=
  nl ++ emoji_search ++ u " Processing: '" ++ q ++ u "'".
Definition msg_analysis (needs_images : bool) : pystr :=
  emoji_brain ++ u " LangChain analysis: "
    ++ (if needs_images then u "Images needed" else u "Text only").
Definition msg_searching : pystr := emoji_rocket ++ u " Searching with Apify Actor...".
Definition msg_found (total : pyval) (n_perspectives : Z) : pystr :=
  emoji_check ++ u " Found " ++ py_str total ++ u " images from "
    ++ str_of_int n_perspectives ++ u " perspectives".
Definition msg_generating : pystr :=
  emoji_memo ++ u " Generating image-aware response with LangChain...".

Definition process_query (q : pystr) : M ProcessedResult :=
  print (msg_processing q) ;;;
  (* Step 1 *)
  needs_images <- should_search_images q ;;
  print (msg_analysis needs_images) ;;;
  (* Step 2: [images_data = {}], overwritten when images are needed *)
  images_data <-
    (if needs_images then
       print msg_searching ;;;
       found <- search_images q 10 ;;
       let total := dict_get found (u "total_results") (VInt 0) in
       n <- lift (py_len (dict_get found (u "search_perspectives") (VList []))) ;;
       print (msg_found total n) ;;;
       ret found
     else ret []) ;;
  (* Step 3 *)
  print msg_generating ;;;
  text <- get_text_response_with_images q (Some images_data) ;;
  ret {| query := q;
         text_response := text;
         images := dict_get images_data (u "images") (VList []);
         total_images := dict_get images_data (u "total_results") (VInt 0);
         perspectives := dict_get images_data (u "search_perspectives") (VList []);
         image_aware_response := nonempty images_data |}.

(* ---------------------------------------------------------------- *)
(** *** The compose step as the specification words it

    Every field of a record is shown through [str()], and a field the
    record does not have is shown as its placeholder. *)

Definition shown (record : pydict) (field placeholder : pystr) : pystr :=
  match dict_lookup field record with
  | Some v => py_str v
  | None => placeholder
  end.

(** The perspective type is title-cased; absent, it reads [Unknown]. *)
Definition shown_type (record : pydict) : pystr :=
  match dict_lookup (u "perspective_type") record with
  | Some (VStr s) => str_title s
  | Some _ => []
  | None => u "Unknown"
  end.

Definition spec_perspective_entry (p : pydict) : pystr :=
  bullet ++ u " " ++ shown_type p ++ u ": '" ++ shown p (u "query") (u "N/A")
    ++ u "' (" ++ shown p (u "images_found") (u "0") ++ u " images)" ++ nl.

Definition spec_image_entry (i : Z) (img : pydict) : pystr :=
  str_of_int (i + 1) ++ u ". Title: " ++ shown img (u "title") (u "Untitled") ++ nl
    ++ u "   Source: " ++ shown img (u "display_link") (u "N/A") ++ nl
    ++ u "   Perspective: " ++ shown img (u "perspective_query") (u "N/A") ++ nl
    ++ u "   Size: " ++ shown img (u "width") (u "N/A") ++ u "x"
    ++ shown img (u "height") (u "N/A") ++ nl ++ nl.

(** Entries numbered from [i + 1] on. *)
Fixpoint spec_image_entries (i : Z) (imgs : list pydict) : list pystr :=
  match imgs with
  | [] => []
  | img :: imgs' => spec_image_entry i img :: spec_image_entries (i + 1) imgs'
  end.

(** A perspective record the compose step can render: its type, when
    present, is a string. *)
Definition type_is_text (p : pydict) : Prop :=
  match dict_lookup (u "perspective_type") p with
  | Some (VStr _) | None => True
  | Some _ => False
  end.

(** [needle] occurs in [hay]. *)
Definition occurs_in (needle hay : pystr) : Prop :=
  exists before after, hay = before ++ needle ++ after.

(** A computation that leaves the console alone. *)
Definition quiet {A : Type} (c : M A) : Prop :=
  forall lines s, c (printed lines s) = (fst (c s), printed lines (snd (c s))).

(** Step 3 of [process_query] and the assembly of the result, after
    [lines] were printed. *)
Definition compose_and_assemble (q : pystr) (images_data : pydict)
           (lines : list pystr) (s : State World)
  : outcome ProcessedResult * State World :=
  match get_text_response_with_images q (Some images_data) s with
  | (Ok text, s') =>
      (Ok {| query := q;
             text_response := text;
             images := dict_get images_data (u "images") (VList []);
             total_images := dict_get images_data (u "total_results") (VInt 0);
             perspectives := dict_get images_data (u "search_perspectives") (VList []);
             image_aware_response := nonempty images_data |},
       printed (lines ++ [msg_generating]) s')
  | (Exc e, s') => (Exc e, printed (lines ++ [msg_generating]) s')
  end.

(* ---------------------------------------------------------------- *)
(** *** Shapes of data the later results speak of *)

(** The word yes in any mix of letter cases occurs in [text]. *)
Definition says_yes (text : pystr) : Prop :=
  exists before y e s after,
    text = before ++ [y; e; s] ++ after /\
    (y = 121 \/ y = 89)%N /\ (e = 101 \/ e = 69)%N /\ (s = 115 \/ s = 83)%N.

(** Values that have neither a length nor items nor slices: [None],
    booleans and numbers. *)
Definition scalar (x : pyval) : Prop :=
  match x with
  | VNone | VBool _ | VInt _ | VFloat _ => True
  | _ => False
  end.

Definition is_dict (x : pyval) : Prop :=
  match x with
  | VDict _ => True
  | _ => False
  end.

(* ---------------------------------------------------------------- *)
(** *** [__init__] and [demo]

    The two client constructors and the console's [input] are the
    runtime's; each answers or raises and may change the world. *)
Variable new_chat_model : pystr -> pystr -> World -> outcome unit * World.
Variable new_apify_client : pystr -> World -> outcome unit * World.
Variable console_input : pystr -> World -> outcome pystr * World.

(** An operation of the runtime that is not a call to a collaborator. *)
Definition local {A : Type} (op : World -> outcome A * World) : M A :=
  fun s => let (r, w') := op (world s) in
           (r, {| world := w'; calls := calls s; stdout := stdout s |}).

(** [LangChainApifyAssistant.__init__]. *)
Definition init (gemini_key apify_token : pystr) : M unit :=
  local (new_chat_model (u "gemini-2.0-flash") gemini_key) ;;;
  local (new_apify_client apify_token) ;;;
  print (emoji_check ++ u " LangChain + Apify integration ready!").

(** [x[:n]]. *)
Definition py_slice (n : nat) (x : pyval) : outcome pyval :=
  match x with
  | VList l => Ok (VList (firstn n l))
  | VStr s => Ok (VStr (firstn n s))
  | _ => Exc TypeError
  end.

Definition emoji_camera : pystr := [128248%N].   (* U+1F4F8 *)
Definition emoji_target : pystr := [127919%N].   (* U+1F3AF *)

(** The lines [demo] prints around a result. *)
Definition demo_msg_text (result : ProcessedResult) : pystr :=
  nl ++ emoji_memo ++ u " TEXT RESPONSE ("
     ++ (if image_aware_response result then u "Image-aware" else u "Text-only")
     ++ u "):".
Definition demo_msg_images (result : ProcessedResult) : pystr :=
  nl ++ emoji_camera ++ u " IMAGES REFERENCED IN RESPONSE ("
     ++ py_str (total_images result) ++ u " found):".
Definition demo_msg_perspectives : pystr :=
  nl ++ emoji_target ++ u " PERSPECTIVES USED IN RESPONSE:".
Definition demo_separator : pystr := nl ++ repeat 61%N 60.

(** One turn of [for i, img in enumerate(result['images'][:3])]. *)
Definition demo_image_step (i : Z) (img : pyval) : M unit :=
  title <- lift (py_get img (u "title") (VStr (u "Untitled"))) ;;
  short <- lift (py_slice 50 title) ;;
  print (u "  " ++ str_of_int (i + 1) ++ u ". " ++ py_str short ++ u "...") ;;;
  link <- lift (py_get img (u "link") (VStr (u "N/A"))) ;;
  print (u "     URL: " ++ py_str link).

Fixpoint demo_images_loop (i : Z) (imgs : list pyval) : M unit :=
  match imgs with
  | [] => ret tt
  | img :: imgs' => demo_image_step i img ;;; demo_images_loop (i + 1) imgs'
  end.

(** One turn of [for p in result['perspectives']]. *)
Definition demo_perspective_step (p : pyval) : M unit :=
  ptype <- lift (py_get p (u "perspective_type") (VStr (u "Unknown"))) ;;
  pquery <- lift (py_get p (u "query") (VStr (u "N/A"))) ;;
  print (u "  " ++ bullet ++ u " " ++ py_str ptype ++ u ": " ++ py_str pquery).

Fixpoint demo_perspectives_loop (ps : list pyval) : M unit :=
  match ps with
  | [] => ret tt
  | p :: ps' => demo_perspective_step p ;;; demo_perspectives_loop ps'
  end.

(** The body of [demo]'s loop after [process_query], up to the
    separator line. *)
Definition demo_show (result : ProcessedResult) : M unit :=
  print (demo_msg_text result) ;;;
  print (text_response result) ;;;
  (if truthy (images result) then
     print (demo_msg_images result) ;;;
     first3 <- lift (py_slice 3 (images result)) ;;
     items <- lift (py_iter first3) ;;
     demo_images_loop 0 items
   else ret tt) ;;;
  (if truthy (perspectives result) then
     print demo_msg_perspectives ;;;
     items <- lift (py_iter (perspectives result)) ;;
     demo_perspectives_loop items
   else ret tt) ;;;
  print demo_separator.

(** [for query in queries: ...]. *)
Fixpoint demo_loop (queries : list pystr) : M unit :=
  match queries with
  | [] => ret tt
  | q :: queries' =>
      result <- process_query q ;;
      demo_show result ;;;
      local (console_input (u "Press Enter for next example...")) ;;;
      demo_loop queries'
  end.

Definition demo : M unit :=
  init (u "xxx") (u "xxx") ;;;
  demo_loop [u "What is machine learning?"; u "Tesla Model Y interior dashboard"].

(** What [demo] shows of an image record, as its lines read: the title
    cut to fifty characters (Untitled when the record has none) and
    followed by three dots, then the link (N/A when it has none). *)
Definition title_is_text (img : pydict) : Prop :=
  match dict_lookup (u "title") img with
  | Some (VStr _) | None => True
  | Some _ => False
  end.

Definition shown_title (img : pydict) : pystr :=
  match dict_lookup (u "title") img with
  | Some (VStr t) => firstn 50 t
  | Some _ => []
  | None => u "Untitled"
  end.

Definition spec_demo_image_lines (i : Z) (img : pydict) : list pystr :=
  [u "  " ++ str_of_int (i + 1) ++ u ". " ++ shown_title img ++ u "...";
   u "     URL: " ++ shown img (u "link") (u "N/A")].

Fixpoint spec_demo_images (i : Z) (imgs : list pydict) : list pystr :=
  match imgs with
  | [] => []
  | img :: imgs' => spec_demo_image_lines i img ++ spec_demo_images (i + 1) imgs'
  end.

Definition spec_demo_perspective_line (p : pydict) : pystr :=
  u "  " ++ bullet ++ u " " ++ shown p (u "perspective_type") (u "Unknown")
    ++ u ": " ++ shown p (u "query") (u "N/A").

(* ================================================================ *)
(** ** Strings *)

Lemma startswith_spec needle hay :
  startswith needle hay = true <-> exists rest, hay = needle ++ rest.
Proof.
  revert hay; induction needle as [|x n IH]; intros hay; simpl.
  - split; [intros _; now exists hay | reflexivity].
  - destruct hay as [|y h].
    + split; [discriminate | intros [rest H]; discriminate].
    + rewrite andb_true_iff, N.eqb_eq, IH. split.
      * intros [-> [rest ->]]. now exists rest.
      * intros [rest H]. injection H as -> ->. split; [reflexivity | now exists rest].
Qed.

Lemma py_in_spec needle hay :
  py_in needle hay = true <-> occurs_in needle hay.
Proof.
  unfold occurs_in. induction hay as [|y h IH].
  - cbn [py_in]. rewrite orb_false_r, startswith_spec. split.
    + intros [rest H]. now exists [], rest.
    + intros [before [after H]]. destruct before; [now exists after|discriminate].
  - cbn [py_in]. rewrite orb_true_iff, startswith_spec, IH. split.
    + intros [[rest H] | [before [after H]]].
      * now exists [], rest.
      * exists (y :: before), after. now rewrite H.
    + intros [before [after H]]. destruct before as [|b before].
      * left. now exists after.
      * right. injection H as _ H. now exists before, after.
Qed.

Lemma str_upper_app a b : str_upper (a ++ b) = str_upper a ++ str_upper b.
Proof. apply flat_map_app. Qed.

Lemma occurs_in_app needle before hay after :
  occurs_in needle hay -> occurs_in needle (before ++ hay ++ after).
Proof.
  intros [b [a ->]]. exists (before ++ b), (a ++ after).
  now rewrite <- !app_assoc.
Qed.

Lemma str_eqb_eq a b : str_eqb a b = true <-> a = b.
Proof.
  revert b; induction a as [|x a IH]; intros [|y b]; simpl;
    try (split; [discriminate | intros H; discriminate]); [tauto|].
  rewrite andb_true_iff, N.eqb_eq, IH. split.
  - now intros [-> ->].
  - intros H; injection H as -> ->. tauto.
Qed.

(* ================================================================ *)
(** ** The monad *)

Lemma printed_printed a b s : printed b (printed a s) = printed (a ++ b) s.
Proof. unfold printed; simpl. now rewrite app_assoc. Qed.

Lemma quiet_ret {A : Type} (a : A) : quiet (ret a).
Proof. intros lines s. reflexivity. Qed.

Lemma quiet_lift {A : Type} (c : outcome A) : quiet (lift c).
Proof. intros lines s. reflexivity. Qed.

Lemma quiet_remote {A : Type} c (op : World -> outcome A * World) : quiet (remote c op).
Proof.
  intros lines s. unfold remote, printed; simpl.
  now destruct (op (world s)).
Qed.

Lemma quiet_bind {A B : Type} (c : M A) (k : A -> M B) :
  quiet c -> (forall a, quiet (k a)) -> quiet (bind c k).
Proof.
  intros Hc Hk lines s. unfold bind. rewrite Hc.
  destruct (c s) as [[a|e] s1]; simpl; [apply Hk | reflexivity].
Qed.

Lemma quiet_should_search_images q : quiet (should_search_images q).
Proof.
  apply quiet_bind; [apply quiet_remote | intros; apply quiet_ret].
Qed.

Lemma quiet_search_images q n : quiet (search_images q n).
Proof.
  repeat (apply quiet_bind; [first [apply quiet_remote | apply quiet_lift] | intros]).
  apply quiet_ret.
Qed.

Lemma quiet_get_text_response q d : quiet (get_text_response_with_images q d).
Proof.
  repeat (apply quiet_bind; [first [apply quiet_remote | apply quiet_lift] | intros]).
  apply quiet_ret.
Qed.

Lemma quiet_run {A : Type} (c : M A) lines s r s' :
  quiet c -> c s = (r, s') -> c (printed lines s) = (r, printed lines s').
Proof. intros Hq H. rewrite Hq, H. reflexivity. Qed.

Lemma compose_and_assemble_run q (images_data : pydict) lines s :
  (print msg_generating ;;;
   text <- get_text_response_with_images q (Some images_data) ;;
   ret {| query := q;
          text_response := text;
          images := dict_get images_data (u "images") (VList []);
          total_images := dict_get images_data (u "total_results") (VInt 0);
          perspectives := dict_get images_data (u "search_perspectives") (VList []);
          image_aware_response := nonempty images_data |}) (printed lines s)
  = compose_and_assemble q images_data lines s.
Proof.
  unfold compose_and_assemble.
  unfold bind at 1. unfold print at 1. rewrite printed_printed.
  unfold bind at 1.
  rewrite (quiet_get_text_response q (Some images_data)).
  destruct (get_text_response_with_images q (Some images_data) s) as [[text|e] s3];
    reflexivity.
Qed.

(** [process_query], one step at a time. *)
Lemma process_query_steps q s :
  process_query q s =
  match should_search_images q s with
  | (Exc e, s1) => (Exc e, printed [msg_processing q] s1)
  | (Ok false, s1) =>
      compose_and_assemble q [] [msg_processing q; msg_analysis false] s1
  | (Ok true, s1) =>
      match search_images q 10 s1 with
      | (Exc e, s2) =>
          (Exc e, printed [msg_processing q; msg_analysis true; msg_searching] s2)
      | (Ok found, s2) =>
          match py_len (dict_get found (u "search_perspectives") (VList [])) with
          | Exc e =>
              (Exc e, printed [msg_processing q; msg_analysis true; msg_searching] s2)
          | Ok n =>
              compose_and_assemble q found
                [msg_processing q; msg_analysis true; msg_searching;
                 msg_found (dict_get found (u "total_results") (VInt 0)) n] s2
          end
      end
  end.
Proof.
  unfold process_query.
  unfold bind at 1. unfold print at 1.
  unfold bind at 1.
  rewrite (quiet_should_search_images q).
  destruct (should_search_images q s) as [[needs|e] s1]; [|reflexivity].
  cbn [fst snd].
  unfold bind at 1. unfold print at 1. rewrite printed_printed.
  unfold bind at 1.
  destruct needs.
  - unfold bind at 1. unfold print at 1. rewrite printed_printed.
    unfold bind at 1.
    rewrite (quiet_search_images q 10).
    destruct (search_images q 10 s1) as [[found|e] s2]; [|reflexivity].
    cbn [fst snd].
    unfold bind at 1. unfold lift at 1.
    destruct (py_len _) as [n|e]; [|reflexivity].
    unfold bind at 1. unfold print at 1. rewrite printed_printed.
    unfold ret at 1.
    apply compose_and_assemble_run.
  - unfold ret at 1.
    apply (compose_and_assemble_run q []).
Qed.

(* ================================================================ *)
(** ** The three steps *)

Lemma called_called a b w1 w2 s : called b w2 (called a w1 s) = called (a ++ b) w2 s.
Proof. unfold called; simpl. now rewrite app_assoc. Qed.

Lemma invoke_run prompt s :
  invoke prompt s =
  (fst (llm_invoke prompt (world s)),
   called [CInvoke prompt] (snd (llm_invoke prompt (world s))) s).
Proof. unfold invoke, remote. now destruct (llm_invoke prompt (world s)). Qed.

Lemma should_search_images_run q s :
  should_search_images q s =
  (omap (fun response => py_in (u "YES") (str_upper (content response)))
        (fst (llm_invoke (classify_prompt q) (world s))),
   called [CInvoke (classify_prompt q)]
          (snd (llm_invoke (classify_prompt q) (world s))) s).
Proof.
  unfold should_search_images, bind. rewrite invoke_run.
  now destruct (fst (llm_invoke (classify_prompt q) (world s))).
Qed.

Lemma get_text_response_run q images_data s :
  get_text_response_with_images q images_data s =
  match compose_prompt q images_data with
  | Ok prompt =>
      (omap content (fst (llm_invoke prompt (world s))),
       called [CInvoke prompt] (snd (llm_invoke prompt (world s))) s)
  | Exc e => (Exc e, s)
  end.
Proof.
  unfold get_text_response_with_images, bind, lift.
  destruct (compose_prompt q images_data) as [prompt|e]; [|reflexivity].
  rewrite invoke_run.
  now destruct (fst (llm_invoke prompt (world s))).
Qed.

Lemma no_images_plain q images_data :
  no_images images_data = true -> compose_prompt q images_data = Ok (plain_prompt q).
Proof. unfold compose_prompt. now intros ->. Qed.

(** C2: when the chat model answers the classification prompt,
    [should_search_images] returns true exactly when the upper-cased
    answer contains YES; so it does for an answer that contains
    "Yes, absolutely", and it does not for the answer "No.". *)
Theorem should_search_images_iff_yes q s response w' :
  llm_invoke (classify_prompt q) (world s) = (Ok response, w') ->
  exists b,
    should_search_images q s = (Ok b, called [CInvoke (classify_prompt q)] w' s) /\
    (b = true <-> occurs_in (u "YES") (str_upper (content response))) /\
    (occurs_in (u "Yes, absolutely") (content response) -> b = true) /\
    (content response = u "No." -> b = false).
Proof.
  intros H. exists (py_in (u "YES") (str_upper (content response))).
  rewrite should_search_images_run, H. cbn [fst snd omap].
  split; [reflexivity|]. split; [apply py_in_spec|]. split.
  - intros [before [after ->]]. apply py_in_spec.
    rewrite !str_upper_app. apply occurs_in_app.
    exists [], (u ", ABSOLUTELY"). reflexivity.
  - intros ->. reflexivity.
Qed.

(** C5: with [images_data] None, the empty dictionary, or a
    dictionary whose [images] is absent or the empty list, the prompt
    sent to the chat model is the plain template around the query and
    nothing else. *)
Theorem plain_prompt_without_images q images_data s :
  images_data = None \/ images_data = Some [] \/
  (exists d, images_data = Some d /\
             (dict_lookup (u "images") d = None \/
              dict_lookup (u "images") d = Some (VList []))) ->
  let prompt := u "Answer this query comprehensively: '" ++ q ++ u "'" in
  compose_prompt q images_data = Ok prompt /\
  get_text_response_with_images q images_data s =
    (omap content (fst (llm_invoke prompt (world s))),
     called [CInvoke prompt] (snd (llm_invoke prompt (world s))) s).
Proof.
  intros H prompt.
  assert (Hp : compose_prompt q images_data = Ok prompt).
  { apply no_images_plain.
    destruct H as [-> | [-> | [d [-> [H | H]]]]]; try reflexivity;
      unfold no_images, dict_get; rewrite H; apply orb_true_r. }
  split; [exact Hp|]. now rewrite get_text_response_run, Hp.
Qed.

(** C6: [search_images] runs the actor, then reads the run's dataset,
    and returns the first record, or the empty dictionary when the
    dataset has none; on the empty dictionary the compose step sends
    the plain prompt. *)
Theorem search_images_first_record q max_results s run dataset_id items w1 w2 :
  let input := {| ri_query := q; ri_maxResults := max_results |} in
  actor_call ACTOR_ID input (world s) = (Ok run, w1) ->
  py_subscript run (u "defaultDatasetId") = Ok dataset_id ->
  dataset_iterate_items dataset_id w1 = (Ok items, w2) ->
  search_images q max_results s =
    (Ok (hd [] items),
     called [CActorCall ACTOR_ID input; CIterateItems dataset_id] w2 s) /\
  (items = [] ->
   fst (search_images q max_results s) = Ok [] /\
   forall q' s',
     calls (snd (get_text_response_with_images q' (Some (hd [] items)) s'))
     = calls s' ++ [CInvoke (plain_prompt q')]).
Proof.
  intros input Ha Hid Hd.
  assert (E : search_images q max_results s =
              (Ok (hd [] items),
               called [CActorCall ACTOR_ID input; CIterateItems dataset_id] w2 s)).
  { unfold search_images, bind, remote, lift. fold input. rewrite Ha, Hid.
    cbn [world called]. rewrite Hd, called_called. unfold ret.
    now destruct items. }
  split; [exact E|]. intros ->. rewrite E. split; [reflexivity|].
  intros q' s'. rewrite get_text_response_run. reflexivity.
Qed.

(* ================================================================ *)
(** ** The composite prompt *)

Lemma shown_get record field placeholder :
  py_str (dict_get record field (VStr placeholder)) = shown record field placeholder.
Proof. unfold shown, dict_get. now destruct (dict_lookup field record). Qed.

Lemma shown_get_zero record field :
  py_str (dict_get record field (VInt 0)) = shown record field (u "0").
Proof. unfold shown, dict_get. now destruct (dict_lookup field record). Qed.

Lemma shown_missing record field placeholder :
  dict_lookup field record = None -> shown record field placeholder = placeholder.
Proof. unfold shown. now intros ->. Qed.

Lemma image_step_dict image_context i img :
  image_step image_context i (VDict img)
  = Ok (image_context ++ spec_image_entry i img).
Proof.
  unfold image_step, spec_image_entry. cbn [py_get obind].
  rewrite !shown_get. f_equal. now rewrite <- !app_assoc.
Qed.

Lemma image_step_ok image_context i img r :
  image_step image_context i img = Ok r -> exists d, img = VDict d.
Proof. destruct img; try discriminate. intros _. now eexists. Qed.

Lemma images_loop_dicts imgs : forall image_context i,
  images_loop image_context i (map VDict imgs)
  = Ok (image_context ++ List.concat (spec_image_entries i imgs)).
Proof.
  induction imgs as [|img imgs IH]; intros image_context i;
    cbn [images_loop map spec_image_entries List.concat].
  - now rewrite app_nil_r.
  - rewrite image_step_dict. cbn [obind]. rewrite IH. now rewrite <- app_assoc.
Qed.

Lemma images_loop_ok imgs : forall image_context i r,
  images_loop image_context i imgs = Ok r -> exists ds, imgs = map VDict ds.
Proof.
  induction imgs as [|img imgs IH]; intros image_context i r H.
  - now exists [].
  - cbn [images_loop] in H.
    destruct (image_step image_context i img) as [c|e] eqn:E;
      [|discriminate].
    apply image_step_ok in E as [d ->]. cbn [obind] in H.
    apply IH in H as [ds ->]. now exists (d :: ds).
Qed.

Lemma spec_image_entries_length imgs : forall i,
  List.length (spec_image_entries i imgs) = List.length imgs.
Proof. induction imgs; intros i; simpl; [reflexivity | now rewrite IHimgs]. Qed.

Lemma perspective_step_dict image_context p :
  type_is_text p ->
  perspective_step image_context (VDict p)
  = Ok (image_context ++ spec_perspective_entry p).
Proof.
  unfold type_is_text, perspective_step, spec_perspective_entry, shown_type.
  cbn [py_get]. unfold dict_get at 1.
  destruct (dict_lookup (u "perspective_type") p) as [[]|]; try contradiction;
    intros _; cbn [obind py_title];
    rewrite shown_get, shown_get_zero; f_equal; now rewrite <- ?app_assoc.
Qed.

Lemma perspectives_loop_dicts ps : forall image_context,
  Forall type_is_text ps ->
  perspectives_loop image_context (map VDict ps)
  = Ok (image_context ++ List.concat (map spec_perspective_entry ps)).
Proof.
  induction ps as [|p ps IH]; intros image_context H;
    cbn [perspectives_loop map List.concat].
  - now rewrite app_nil_r.
  - inversion H as [|? ? Hp Hps]; subst.
    rewrite perspective_step_dict by exact Hp. cbn [obind].
    rewrite IH by exact Hps. now rewrite <- app_assoc.
Qed.

(** A field that is present but null is not a lacking field: it is
    shown as [None], and a null perspective type has no [title]. *)
Lemma shown_null record field placeholder :
  dict_lookup field record = Some VNone ->
  shown record field placeholder = u "None".
Proof. unfold shown. now intros ->. Qed.

Lemma perspective_step_null_type image_context p :
  dict_lookup (u "perspective_type") p = Some VNone ->
  perspective_step image_context (VDict p) = Exc AttributeError.
Proof.
  intros H. unfold perspective_step. cbn [py_get]. unfold dict_get at 1.
  now rewrite H.
Qed.

Lemma map_VDict_firstn n (ds : list pydict) :
  firstn n (map VDict ds) = map VDict (firstn n ds).
Proof. apply firstn_map. Qed.

Lemma no_images_false d imgs :
  dict_lookup (u "images") d = Some (VList imgs) -> imgs <> [] ->
  no_images (Some d) = false.
Proof.
  intros H Hne. unfold no_images, dict_get. rewrite H.
  destruct d; [discriminate|]. destruct imgs; [contradiction|reflexivity].
Qed.

Lemma image_context_of_ok d imgs r :
  dict_lookup (u "images") d = Some (VList imgs) ->
  image_context_of d = Ok r ->
  exists front ds,
    firstn 5 imgs = map VDict ds /\
    r = front ++ details_header ++ List.concat (spec_image_entries 0 ds).
Proof.
  intros H.
  assert (G : dict_get d (u "images") (VList []) = VList imgs)
    by (unfold dict_get; now rewrite H).
  unfold image_context_of. rewrite G.
  cbn [py_len obind py_slice5 py_iter].
  destruct (py_len _) as [np|e]; [|discriminate]. cbn [obind].
  destruct (py_iter _) as [ps|e]; [|discriminate]. cbn [obind].
  destruct (perspectives_loop _ ps) as [front|e]; [|discriminate]. cbn [obind].
  intros Hl. pose proof Hl as Hds. apply images_loop_ok in Hds as [ds Hds].
  exists front, ds. split; [exact Hds|].
  rewrite Hds, images_loop_dicts in Hl. injection Hl as <-.
  now rewrite <- app_assoc.
Qed.

Lemma Ok_inj {A : Type} (a b : A) : Ok a = Ok b -> a = b.
Proof. now intros [=]. Qed.

Lemma perspective_step_ok image_context p r :
  perspective_step image_context p = Ok r ->
  exists record, p = VDict record /\ type_is_text record.
Proof.
  destruct p as [| | | | |l|record]; try discriminate.
  intros H. exists record. split; [reflexivity|].
  unfold type_is_text. unfold perspective_step in H. cbn [py_get obind] in H.
  unfold dict_get at 1 in H.
  destruct (dict_lookup (u "perspective_type") record) as [[]|];
    try exact I; discriminate H.
Qed.

Lemma perspectives_loop_ok items : forall image_context r,
  perspectives_loop image_context items = Ok r ->
  exists ps, items = map VDict ps /\ Forall type_is_text ps.
Proof.
  induction items as [|p items IH]; intros image_context r H.
  - exists []. split; [reflexivity | constructor].
  - cbn [perspectives_loop] in H.
    destruct (perspective_step image_context p) as [c|e] eqn:E; [|discriminate].
    apply perspective_step_ok in E as [record [-> Ht]]. cbn [obind] in H.
    apply IH in H as [ps [-> Hps]].
    exists (record :: ps). split; [reflexivity | now constructor].
Qed.

Lemma py_len_iter x n items :
  py_len x = Ok n -> py_iter x = Ok items -> n = Z.of_nat (List.length items).
Proof.
  destruct x; try discriminate; cbn [py_len py_iter];
    intros [= <-] [= <-]; now rewrite ?length_map.
Qed.

Lemma spec_image_entries_numbered imgs : forall i k entry,
  nth_error (spec_image_entries i imgs) k = Some entry ->
  exists rest, entry = str_of_int (i + Z.of_nat k + 1) ++ u ". Title: " ++ rest.
Proof using Type.
  induction imgs as [|img imgs IH]; intros i k entry H.
  - destruct k; discriminate.
  - destruct k as [|k]; cbn [spec_image_entries nth_error] in H.
    + injection H as <-. unfold spec_image_entry.
      rewrite Z.add_0_r. now eexists.
    + apply IH in H as [rest ->]. exists rest.
      replace (i + Z.of_nat (S k) + 1)%Z with (i + 1 + Z.of_nat k + 1)%Z by lia.
      reflexivity.
Qed.

(** What [image_context_of] returns, when it returns: the header with
    the two counts, one line for each perspective, the details header,
    and one entry for each of the first five images. *)
Lemma image_context_of_exact d imgs r :
  dict_lookup (u "images") d = Some (VList imgs) ->
  image_context_of d = Ok r ->
  exists ps shown5,
    py_iter (dict_get d (u "search_perspectives") (VList [])) = Ok (map VDict ps) /\
    Forall type_is_text ps /\
    firstn 5 imgs = map VDict shown5 /\
    r = context_header (Z.of_nat (List.length imgs)) (Z.of_nat (List.length ps))
          ++ List.concat (map spec_perspective_entry ps)
          ++ details_header
          ++ List.concat (spec_image_entries 0 shown5).
Proof.
  intros H.
  assert (G : dict_get d (u "images") (VList []) = VList imgs)
    by (unfold dict_get; now rewrite H).
  unfold image_context_of. rewrite G.
  cbn [py_len obind py_slice5 py_iter].
  destruct (py_len (dict_get d (u "search_perspectives") (VList [])))
    as [np|e] eqn:Elen; [|discriminate].
  cbn [obind].
  destruct (py_iter (dict_get d (u "search_perspectives") (VList [])))
    as [items|e] eqn:Eiter; [|discriminate].
  cbn [obind].
  destruct (perspectives_loop _ items) as [front|e] eqn:Eloop; [|discriminate].
  cbn [obind]. intros Hl.
  pose proof Eloop as Hps. apply perspectives_loop_ok in Hps as [ps [-> Hty]].
  pose proof Hl as Hds. apply images_loop_ok in Hds as [shown5 Hds].
  exists ps, shown5.
  split; [reflexivity|]. split; [exact Hty|]. split; [exact Hds|].
  rewrite (py_len_iter _ Elen Eiter), length_map in Eloop.
  rewrite perspectives_loop_dicts in Eloop by exact Hty.
  apply Ok_inj in Eloop. subst front.
  rewrite Hds, images_loop_dicts in Hl. apply Ok_inj in Hl. subst r.
  now rewrite <- !app_assoc.
Qed.

(** C4: whatever the number of images, a composite prompt is the fixed
    opening, the header with the two counts, one line for each
    perspective, then the IMAGE DETAILS header followed by one entry
    for each of the first five images, numbered from 1, and the fixed
    guidelines, with nothing else in it: at most five entries, and
    exactly five from five images on.  The bound is the literal 5 of
    the slice; the function takes no argument for it. *)
Theorem compose_prompt_five_entries q d imgs prompt :
  dict_lookup (u "images") d = Some (VList imgs) ->
  compose_prompt q (Some d) = Ok prompt ->
  (imgs = [] /\ prompt = u "Answer this query comprehensively: '" ++ q ++ u "'") \/
  exists (ps shown5 : list pydict) (entries : list pystr),
    py_iter (dict_get d (u "search_perspectives") (VList [])) = Ok (map VDict ps) /\
    firstn 5 imgs = map VDict shown5 /\
    entries = spec_image_entries 0 shown5 /\
    List.length entries = Nat.min (List.length imgs) 5 /\
    List.length entries <= 5 /\
    (5 <= List.length imgs -> List.length entries = 5) /\
    (forall k entry,
        nth_error entries k = Some entry ->
        exists rest, entry = str_of_int (Z.of_nat k + 1) ++ u ". Title: " ++ rest) /\
    prompt =
      (nl ++ u "Answer this query comprehensively: " ++ dq ++ q ++ dq ++ nl
          ++ nl
          ++ u "IMPORTANT: I have found relevant images that provide visual context for this topic. Use this image information to enhance your response:" ++ nl
          ++ nl
          ++ nl ++ u "I found " ++ str_of_int (Z.of_nat (List.length imgs))
          ++ u " relevant images from " ++ str_of_int (Z.of_nat (List.length ps))
          ++ u " different search perspectives:" ++ nl
          ++ nl
          ++ u "SEARCH PERSPECTIVES USED:" ++ nl
          ++ List.concat (map spec_perspective_entry ps))
      ++ (nl ++ u "IMAGE DETAILS FOUND:" ++ nl ++ List.concat entries)
      ++ (nl
          ++ nl
          ++ u "Guidelines:" ++ nl
          ++ u "1. Reference the specific images found and how they relate to your explanation" ++ nl
          ++ u "2. Mention the different perspectives covered by the image search" ++ nl
          ++ u "3. Explain how the visual content complements your text response" ++ nl
          ++ u "4. Provide a comprehensive answer that combines your knowledge with the visual evidence found" ++ nl
          ++ nl
          ++ u "Provide a detailed response that integrates both textual explanation and references to the visual content discovered." ++ nl).
Proof.
  intros H Hp. destruct imgs as [|img imgs'] eqn:Himgs.
  - left. split; [reflexivity|].
    rewrite no_images_plain in Hp; [now injection Hp|].
    unfold no_images, dict_get. rewrite H. apply orb_true_r.
  - right. rewrite <- Himgs in *.
    assert (Hne : imgs <> []) by (rewrite Himgs; discriminate).
    unfold compose_prompt in Hp. rewrite (no_images_false _ H Hne) in Hp.
    destruct (image_context_of d) as [r|e] eqn:E; [|discriminate].
    injection Hp as <-.
    destruct (image_context_of_exact _ H E) as [ps [shown5 [Hps [_ [Hds ->]]]]].
    exists ps, shown5, (spec_image_entries 0 shown5).
    assert (Hlen : List.length (spec_image_entries 0 shown5)
                   = Nat.min (List.length imgs) 5).
    { rewrite spec_image_entries_length.
      transitivity (List.length (map VDict shown5)); [now rewrite length_map|].
      rewrite <- Hds, length_firstn. apply Nat.min_comm. }
    split; [exact Hps|]. split; [exact Hds|]. split; [reflexivity|].
    split; [exact Hlen|]. split; [|split; [|split]].
    + apply Nat.le_trans with (Nat.min (List.length imgs) 5);
        [apply Nat.eq_le_incl; exact Hlen | apply Nat.le_min_r].
    + intros H5. etransitivity; [exact Hlen | now apply Nat.min_r].
    + intros k entry Hk. now apply spec_image_entries_numbered in Hk.
    + unfold rich_prompt, context_header, details_header.
      now rewrite <- !app_assoc.
Qed.

(** C7: on image records and perspective records, whatever fields
    they lack, the compose step builds its prompt: every record is
    rendered, a lacking field by its placeholder (Untitled for the
    title, N/A for display_link, perspective_query, width, height and
    query, Unknown for perspective_type, 0 for images_found). *)
Theorem compose_prompt_placeholders q d imgs ps :
  dict_lookup (u "images") d = Some (VList (map VDict imgs)) ->
  imgs <> [] ->
  dict_get d (u "search_perspectives") (VList []) = VList (map VDict ps) ->
  Forall type_is_text ps ->
  compose_prompt q (Some d)
  = Ok (rich_prompt q
          (context_header (Z.of_nat (List.length imgs)) (Z.of_nat (List.length ps))
             ++ List.concat (map spec_perspective_entry ps)
             ++ details_header
             ++ List.concat (spec_image_entries 0 (firstn 5 imgs)))) /\
  (forall record field placeholder,
      dict_lookup field record = None ->
      shown record field placeholder = placeholder) /\
  (forall record,
      dict_lookup (u "perspective_type") record = None ->
      shown_type record = u "Unknown") /\
  (forall i,
      spec_image_entry i []
      = str_of_int (i + 1) ++ u ". Title: Untitled" ++ nl
          ++ u "   Source: N/A" ++ nl
          ++ u "   Perspective: N/A" ++ nl
          ++ u "   Size: N/AxN/A" ++ nl ++ nl) /\
  spec_perspective_entry [] = bullet ++ u " Unknown: 'N/A' (0 images)" ++ nl.
Proof.
  intros Hi Hne Hp Hty. split; [|split; [|split; [|split]]].
  - assert (Hne' : map VDict imgs <> []) by (destruct imgs; [contradiction|discriminate]).
    unfold compose_prompt. rewrite (no_images_false _ Hi Hne').
    assert (G : dict_get d (u "images") (VList []) = VList (map VDict imgs))
      by (unfold dict_get; now rewrite Hi).
    unfold image_context_of. rewrite Hp, G.
    cbn [py_len obind py_slice5 py_iter]. rewrite !length_map.
    rewrite perspectives_loop_dicts by exact Hty. cbn [obind].
    rewrite map_VDict_firstn, images_loop_dicts. cbn [obind].
    now rewrite <- !app_assoc.
  - apply shown_missing.
  - intros record H. unfold shown_type. now rewrite H.
  - intros i. unfold spec_image_entry, shown. cbn [dict_lookup].
    apply f_equal. reflexivity.
  - reflexivity.
Qed.

(* ================================================================ *)
(** ** The orchestration *)

Lemma compose_and_assemble_ok q d lines s r s' :
  compose_and_assemble q d lines s = (Ok r, s') ->
  exists text s3,
    get_text_response_with_images q (Some d) s = (Ok text, s3) /\
    s' = printed (lines ++ [msg_generating]) s3 /\
    r = {| query := q;
           text_response := text;
           images := dict_get d (u "images") (VList []);
           total_images := dict_get d (u "total_results") (VInt 0);
           perspectives := dict_get d (u "search_perspectives") (VList []);
           image_aware_response := nonempty d |}.
Proof.
  unfold compose_and_assemble.
  destruct (get_text_response_with_images q (Some d) s) as [[text|e] s3];
    [|discriminate].
  intros H. injection H as <- <-. now exists text, s3.
Qed.

Lemma nonempty_true {A : Type} (l : list A) : nonempty l = true <-> l <> [].
Proof. destruct l; simpl; split; try congruence; intros; discriminate. Qed.

(** C1: in the result of [process_query], [image_aware_response] is
    true exactly when the classification said yes and the search
    returned a non-empty record; when it is false, and so whenever
    the classification said no, [images] and [perspectives] are empty
    and [total_images] is 0. *)
Theorem image_aware_iff_search_result q s r s' :
  process_query q s = (Ok r, s') ->
  (image_aware_response r = true <->
     exists s1 found s2,
       should_search_images q s = (Ok true, s1) /\
       search_images q 10 s1 = (Ok found, s2) /\
       found <> []) /\
  (image_aware_response r = false ->
     images r = VList [] /\ perspectives r = VList [] /\ total_images r = VInt 0) /\
  (forall s1, should_search_images q s = (Ok false, s1) ->
              image_aware_response r = false).
Proof.
  rewrite process_query_steps.
  destruct (should_search_images q s) as [[[|]|e] s1] eqn:Hc; [| |discriminate].
  - destruct (search_images q 10 s1) as [[found|e] s2] eqn:Hs; [|discriminate].
    destruct (py_len _) as [n|e]; [|discriminate].
    intros H. apply compose_and_assemble_ok in H as [text [s3 [_ [_ ->]]]].
    cbn [image_aware_response images perspectives total_images].
    split; [|split].
    + rewrite nonempty_true. split.
      * intros Hne. now exists s1, found, s2.
      * intros [s1' [found' [s2' [H1 [H2 Hne]]]]].
        injection H1 as <-. rewrite Hs in H2. congruence.
    + destruct found; [intros _; repeat split; reflexivity | discriminate].
    + intros s1' H. discriminate.
  - intros H. apply compose_and_assemble_ok in H as [text [s3 [_ [_ ->]]]].
    cbn [image_aware_response images perspectives total_images nonempty].
    split; [|split].
    + split; [discriminate|]. intros [s1' [found [s2 [H _]]]]. discriminate.
    + intros _. repeat split; reflexivity.
    + reflexivity.
Qed.

(** C3: when the classification said yes and the search returned a
    non-empty record, every result [process_query] returns is
    image-aware and carries the record's [images],
    [search_perspectives] and [total_results] as they are (the
    default of [get] for a field the record lacks); and it does
    return one once the perspectives can be counted and the compose
    step answers. *)
Theorem process_query_mirrors_search q s s1 found s2 :
  should_search_images q s = (Ok true, s1) ->
  search_images q 10 s1 = (Ok found, s2) ->
  found <> [] ->
  (forall r s', process_query q s = (Ok r, s') ->
     image_aware_response r = true /\
     images r = dict_get found (u "images") (VList []) /\
     perspectives r = dict_get found (u "search_perspectives") (VList []) /\
     total_images r = dict_get found (u "total_results") (VInt 0) /\
     (forall total ps,
         dict_lookup (u "total_results") found = Some total ->
         dict_lookup (u "search_perspectives") found = Some (VList ps) ->
         total_images r = total /\ perspectives r = VList ps)) /\
  (forall n text s3,
     py_len (dict_get found (u "search_perspectives") (VList [])) = Ok n ->
     get_text_response_with_images q (Some found) s2 = (Ok text, s3) ->
     exists r s', process_query q s = (Ok r, s') /\ text_response r = text).
Proof.
  intros Hc Hs Hne. split.
  - intros r s'. rewrite process_query_steps, Hc, Hs.
    destruct (py_len _) as [n|e]; [|discriminate].
    intros H. apply compose_and_assemble_ok in H as [text [s3 [_ [_ ->]]]].
    cbn [image_aware_response images perspectives total_images].
    rewrite nonempty_true.
    split; [exact Hne|]. do 3 (split; [reflexivity|]).
    unfold dict_get. intros total ps -> ->. now split.
  - intros n text s3 Hn Hg. rewrite process_query_steps, Hc, Hs, Hn.
    unfold compose_and_assemble. rewrite Hg. now eexists _, _.
Qed.

Lemma search_images_calls q max_results s :
  let search := CActorCall ACTOR_ID {| ri_query := q; ri_maxResults := max_results |} in
  exists more,
    calls (snd (search_images q max_results s)) = calls s ++ search :: more /\
    (more = [] \/ exists dataset_id, more = [CIterateItems dataset_id]) /\
    (forall found, fst (search_images q max_results s) = Ok found ->
                   exists dataset_id, more = [CIterateItems dataset_id]).
Proof.
  intros search. unfold search_images, bind, remote, lift. fold search.
  destruct (actor_call _ _ (world s)) as [[run|e] w1].
  - destruct (py_subscript run _) as [dataset_id|e].
    + cbn [world called].
      destruct (dataset_iterate_items dataset_id w1) as [[items|e] w2];
        exists [CIterateItems dataset_id]; cbn [snd fst calls called ret];
        rewrite <- app_assoc; repeat split; eauto.
    + exists []. cbn [snd fst calls called]. repeat split; eauto. discriminate.
  - exists []. cbn [snd fst calls called]. repeat split; eauto. discriminate.
Qed.

Lemma get_text_response_calls q images_data s :
  exists more,
    calls (snd (get_text_response_with_images q images_data s)) = calls s ++ more /\
    (more = [] \/ exists prompt, more = [CInvoke prompt]) /\
    (forall text, fst (get_text_response_with_images q images_data s) = Ok text ->
                  exists prompt, more = [CInvoke prompt]).
Proof.
  rewrite get_text_response_run.
  destruct (compose_prompt q images_data) as [prompt|e].
  - exists [CInvoke prompt]. cbn [snd fst calls called]. repeat split; eauto.
  - exists []. cbn [snd fst]. rewrite app_nil_r. repeat split; eauto. discriminate.
Qed.

Lemma compose_and_assemble_calls q d lines s :
  exists more,
    calls (snd (compose_and_assemble q d lines s)) = calls s ++ more /\
    (more = [] \/ exists prompt, more = [CInvoke prompt]) /\
    (forall r, fst (compose_and_assemble q d lines s) = Ok r ->
               exists prompt, more = [CInvoke prompt]).
Proof.
  destruct (get_text_response_calls q (Some d) s) as [more [Hc [Hm Hok]]].
  exists more. unfold compose_and_assemble.
  destruct (get_text_response_with_images q (Some d) s) as [[text|e] s3];
    cbn [fst snd calls printed] in *; repeat split; eauto. discriminate.
Qed.

(** C8: the remote calls of [process_query] are, in this order, the
    classification call, then the search (the actor run and the read
    of its dataset) only if the classification returned true, then
    the compose call.  Nothing precedes the classification call, and
    no search call is made when the classification returned false or
    raised. *)
Theorem process_query_call_order q s :
  let classify := CInvoke (classify_prompt q) in
  let search := CActorCall ACTOR_ID {| ri_query := q; ri_maxResults := 10 |} in
  exists rest,
    calls (snd (process_query q s)) = calls s ++ classify :: rest /\
    match fst (should_search_images q s) with
    | Exc _ => rest = []
    | Ok false => rest = [CInvoke (plain_prompt q)]
    | Ok true =>
        (rest = [search] \/
         (exists dataset_id, rest = [search; CIterateItems dataset_id]) \/
         (exists dataset_id prompt,
             rest = [search; CIterateItems dataset_id; CInvoke prompt])) /\
        (forall r, fst (process_query q s) = Ok r ->
                   exists dataset_id prompt,
                     rest = [search; CIterateItems dataset_id; CInvoke prompt])
    end.
Proof.
  intros classify search. rewrite process_query_steps.
  assert (Hcalls : calls (snd (should_search_images q s)) = calls s ++ [classify])
    by (rewrite should_search_images_run; reflexivity).
  destruct (should_search_images q s) as [[[|]|e] s1]; cbn [fst snd] in Hcalls |- *.
  - destruct (search_images_calls q 10 s1) as [m1 [Hs [Hm1 Hok1]]]. fold search in Hs.
    destruct (search_images q 10 s1) as [[found|e] s2]; cbn [fst snd] in Hs, Hok1 |- *.
    + destruct (Hok1 found eq_refl) as [dataset_id ->].
      destruct (py_len _) as [n|e].
      * match goal with |- context [compose_and_assemble q found ?l s2] =>
          destruct (compose_and_assemble_calls q found l s2) as [m2 [Hg [Hm2 Hok2]]];
          destruct (compose_and_assemble q found l s2) as [res s3]
        end.
        cbn [fst snd] in Hg, Hok2 |- *.
        exists (search :: CIterateItems dataset_id :: m2).
        rewrite Hg, Hs, Hcalls, <- !app_assoc. split; [reflexivity|]. split.
        -- destruct Hm2 as [-> | [prompt ->]]; eauto.
        -- intros r Hr. destruct (Hok2 r Hr) as [prompt ->]. eauto.
      * exists [search; CIterateItems dataset_id]. cbn [fst snd calls printed].
        rewrite Hs, Hcalls, <- !app_assoc. repeat split; eauto. discriminate.
    + exists (search :: m1). cbn [calls printed].
      rewrite Hs, Hcalls, <- !app_assoc. split; [reflexivity|]. split.
      * destruct Hm1 as [-> | [dataset_id ->]]; eauto.
      * discriminate.
  - exists [CInvoke (plain_prompt q)]. split; [|reflexivity].
    unfold compose_and_assemble. rewrite get_text_response_run.
    cbn [compose_prompt no_images nonempty negb orb].
    destruct (fst (llm_invoke (plain_prompt q) (world s1)));
      cbn [omap snd calls printed called]; now rewrite Hcalls, <- app_assoc.
  - exists []. split; [|reflexivity]. cbn [calls printed]. exact Hcalls.
Qed.




(** C10: when the classification said yes and the search returned a
    non-empty record whose [images] is absent or the empty list,
    [process_query] (the perspectives being countable and the chat
    model answering) returns a result that is image-aware, has no
    images, and whose text is the answer to the plain prompt. *)
Theorem image_aware_without_images q s s1 found s2 n response w3 :
  should_search_images q s = (Ok true, s1) ->
  search_images q 10 s1 = (Ok found, s2) ->
  found <> [] ->
  dict_lookup (u "images") found = None \/
  dict_lookup (u "images") found = Some (VList []) ->
  py_len (dict_get found (u "search_perspectives") (VList [])) = Ok n ->
  llm_invoke (plain_prompt q) (world s2) = (Ok response, w3) ->
  exists r s',
    process_query q s = (Ok r, s') /\
    image_aware_response r = true /\
    images r = VList [] /\
    text_response r = content response /\
    compose_prompt q (Some found) = Ok (plain_prompt q) /\
    calls s' = calls s2 ++ [CInvoke (plain_prompt q)].
Proof.
  intros Hc Hs Hne Hi Hn Hl.
  assert (Hp : compose_prompt q (Some found) = Ok (plain_prompt q)).
  { apply no_images_plain. unfold no_images, dict_get.
    destruct Hi as [-> | ->]; apply orb_true_r. }
  rewrite process_query_steps, Hc, Hs, Hn. unfold compose_and_assemble.
  rewrite get_text_response_run, Hp, Hl. cbn [fst snd omap].
  eexists _, _. split; [reflexivity|].
  cbn [image_aware_response images text_response calls printed called].
  repeat split; try assumption.
  - now apply nonempty_true.
  - unfold dict_get. destruct Hi as [-> | ->]; reflexivity.
Qed.

(* ================================================================ *)
(** ** Further behaviour of the three steps *)

Lemma str_upper_ascii s :
  forallb is_ascii s = true -> str_upper s = map ascii_to_upper s.
Proof.
  induction s as [|c s IH]; [reflexivity|].
  cbn [forallb]. rewrite andb_true_iff. intros [Hc Hs].
  unfold str_upper in *. cbn [flat_map map]. unfold upper_char at 1.
  rewrite Hc, (IH Hs). reflexivity.
Qed.

Lemma ascii_to_upper_is c (lower upper : N) :
  is_ascii_lower lower = true -> upper = (lower - 32)%N ->
  ascii_to_upper c = upper <-> (c = lower \/ c = upper).
Proof using Type.
  unfold ascii_to_upper, is_ascii_lower. intros Hl ->.
  apply andb_true_iff in Hl as [Hl1 Hl2].
  apply N.leb_le in Hl1, Hl2.
  destruct ((97 <=? c)%N && (c <=? 122)%N) eqn:E.
  - apply andb_true_iff in E as [E1 E2]. apply N.leb_le in E1, E2. lia.
  - apply andb_false_iff in E as [E | E]; apply N.leb_gt in E; lia.
Qed.

Lemma occurs_yes_upper text :
  occurs_in (u "YES") (map ascii_to_upper text) <-> says_yes text.
Proof using Type.
  unfold occurs_in, says_yes. split.
  - intros [before [after H]].
    apply map_eq_app in H as [b' [rest [-> [_ H]]]].
    apply map_eq_cons in H as [y [rest1 [-> [Hy H]]]].
    apply map_eq_cons in H as [e [rest2 [-> [He H]]]].
    apply map_eq_cons in H as [s [after' [-> [Hs _]]]].
    exists b', y, e, s, after'. split; [reflexivity|].
    apply (@ascii_to_upper_is y 121%N 89%N eq_refl eq_refl) in Hy.
    apply (@ascii_to_upper_is e 101%N 69%N eq_refl eq_refl) in He.
    apply (@ascii_to_upper_is s 115%N 83%N eq_refl eq_refl) in Hs.
    repeat split; assumption.
  - intros [before [y [e [s [after [-> [Hy [He Hs]]]]]]]].
    exists (map ascii_to_upper before), (map ascii_to_upper after).
    rewrite map_app. cbn [map app]. f_equal.
    apply (@ascii_to_upper_is y 121%N 89%N eq_refl eq_refl) in Hy.
    apply (@ascii_to_upper_is e 101%N 69%N eq_refl eq_refl) in He.
    apply (@ascii_to_upper_is s 115%N 83%N eq_refl eq_refl) in Hs.
    rewrite Hy, He, Hs. reflexivity.
Qed.

(** X1: on an ASCII answer the classification is true exactly when the
    answer contains the three letters y, e, s in a row, each in either
    case, wherever they stand: inside a longer word as well. *)
Theorem should_search_images_any_case q s response w' :
  llm_invoke (classify_prompt q) (world s) = (Ok response, w') ->
  forallb is_ascii (content response) = true ->
  exists b,
    fst (should_search_images q s) = Ok b /\
    (b = true <-> says_yes (content response)).
Proof using Type.
  intros H Hascii. exists (py_in (u "YES") (str_upper (content response))).
  rewrite should_search_images_run, H. cbn [fst snd omap].
  split; [reflexivity|].
  rewrite py_in_spec, (str_upper_ascii _ Hascii). apply occurs_yes_upper.
Qed.

(** X2: when the actor call hands back no run ([None]), or a run
    without [defaultDatasetId], [search_images] raises ([TypeError],
    respectively [KeyError]) after the actor call and reads no
    dataset. *)
Theorem search_images_without_dataset q max_results s run w1 :
  let input := {| ri_query := q; ri_maxResults := max_results |} in
  actor_call ACTOR_ID input (world s) = (Ok run, w1) ->
  (run = VNone \/
   exists d, run = VDict d /\ dict_lookup (u "defaultDatasetId") d = None) ->
  exists e,
    search_images q max_results s = (Exc e, called [CActorCall ACTOR_ID input] w1 s) /\
    (run = VNone -> e = TypeError) /\
    (is_dict run -> e = KeyError).
Proof.
  intros input Ha Hrun.
  unfold search_images, bind, remote, lift. fold input. rewrite Ha.
  destruct Hrun as [-> | [d [-> Hd]]]; cbn [py_subscript]; [|rewrite Hd].
  - exists TypeError. split; [reflexivity|]. split; [reflexivity|]. intros [].
  - exists KeyError. split; [reflexivity|]. split; [discriminate|reflexivity].
Qed.

Lemma dict_get_present d k v default :
  dict_lookup k d = Some v -> dict_get d k default = v.
Proof. unfold dict_get. now intros ->. Qed.

Lemma compose_prompt_raises_no_call q images_data e s :
  compose_prompt q images_data = Exc e ->
  get_text_response_with_images q images_data s = (Exc e, s).
Proof. intros H. now rewrite get_text_response_run, H. Qed.

(** X3: the composite prompt depends on the images only through their
    number and the first five of them: two search records that agree on
    [search_perspectives], on the number of images and on the first
    five images give the same prompt, or the same exception. *)
Theorem compose_prompt_first_five q d1 d2 imgs1 imgs2 :
  dict_lookup (u "images") d1 = Some (VList imgs1) ->
  dict_lookup (u "images") d2 = Some (VList imgs2) ->
  dict_lookup (u "search_perspectives") d1 = dict_lookup (u "search_perspectives") d2 ->
  List.length imgs1 = List.length imgs2 ->
  firstn 5 imgs1 = firstn 5 imgs2 ->
  compose_prompt q (Some d1) = compose_prompt q (Some d2).
Proof.
  intros H1 H2 Hp Hlen Hfirst.
  assert (Hn : no_images (Some d1) = no_images (Some d2)).
  { unfold no_images. rewrite (dict_get_present _ _ _ H1), (dict_get_present _ _ _ H2).
    destruct d1; [discriminate|]. destruct d2; [discriminate|].
    destruct imgs1, imgs2; try discriminate; reflexivity. }
  unfold compose_prompt. rewrite Hn. destruct (no_images (Some d2)); [reflexivity|].
  unfold image_context_of.
  rewrite (dict_get_present _ _ _ H1), (dict_get_present _ _ _ H2).
  unfold dict_get. rewrite Hp. cbn [py_len py_slice5]. rewrite Hlen, Hfirst.
  reflexivity.
Qed.

(** X4: if one of the first five images is not a dictionary, the
    compose step raises while it builds the prompt, and the chat model
    is not called: the state is left as it was. *)
Theorem malformed_image_stops_compose q d imgs k v s :
  dict_lookup (u "images") d = Some (VList imgs) ->
  nth_error imgs k = Some v ->
  k < 5 ->
  ~ is_dict v ->
  exists e,
    compose_prompt q (Some d) = Exc e /\
    get_text_response_with_images q (Some d) s = (Exc e, s).
Proof.
  intros H Hk Hlt Hv.
  assert (Hne : imgs <> []) by (intros ->; destruct k; discriminate).
  destruct (compose_prompt q (Some d)) as [prompt|e] eqn:E.
  - exfalso. unfold compose_prompt in E. rewrite (no_images_false _ H Hne) in E.
    destruct (image_context_of d) as [r|e] eqn:Ei; [|discriminate].
    destruct (image_context_of_ok _ H Ei) as [front [ds [Hds _]]].
    assert (Hn : nth_error (firstn 5 imgs) k = Some v).
    { rewrite nth_error_firstn. apply Nat.ltb_lt in Hlt. now rewrite Hlt. }
    rewrite Hds, nth_error_map in Hn.
    destruct (nth_error ds k); [|discriminate]. injection Hn as <-. apply Hv. exact I.
  - exists e. split; [reflexivity|]. now apply compose_prompt_raises_no_call.
Qed.

(** X5: when [images] is a number or [True], or when [images] is a
    non-empty list and [search_perspectives] is present as [None], a
    boolean or a number, the compose step raises [TypeError] at the
    [len] of its first line and the chat model is not called. *)
Theorem compose_prompt_unsized q d s :
  (exists v, dict_lookup (u "images") d = Some v /\ scalar v /\ truthy v = true) \/
  (exists imgs v, dict_lookup (u "images") d = Some (VList imgs) /\ imgs <> [] /\
                  dict_lookup (u "search_perspectives") d = Some v /\ scalar v) ->
  compose_prompt q (Some d) = Exc TypeError /\
  get_text_response_with_images q (Some d) s = (Exc TypeError, s).
Proof.
  intros H.
  assert (E : compose_prompt q (Some d) = Exc TypeError).
  { unfold compose_prompt.
    destruct H as [[v [Hi [Hs Ht]]] | [imgs [v [Hi [Hne [Hp Hs]]]]]].
    - assert (Hn : no_images (Some d) = false).
      { unfold no_images. rewrite (dict_get_present _ _ _ Hi), Ht.
        destruct d; [discriminate|reflexivity]. }
      rewrite Hn. unfold image_context_of. rewrite (dict_get_present _ _ _ Hi).
      destruct v; try contradiction; reflexivity.
    - rewrite (no_images_false _ Hi Hne). unfold image_context_of.
      rewrite (dict_get_present _ _ _ Hi), (dict_get_present _ _ _ Hp).
      destruct v; try contradiction; reflexivity. }
  split; [exact E | now apply compose_prompt_raises_no_call].
Qed.

Lemma perspective_step_not_text image_context p :
  ~ type_is_text p -> perspective_step image_context (VDict p) = Exc AttributeError.
Proof.
  unfold type_is_text, perspective_step. cbn [py_get]. unfold dict_get at 1.
  destruct (dict_lookup (u "perspective_type") p) as [[]|]; intros H;
    try reflexivity; exfalso; apply H; exact I.
Qed.

Lemma perspective_step_dict_cases image_context p :
  perspective_step image_context (VDict p) = Exc AttributeError \/
  exists r, perspective_step image_context (VDict p) = Ok r.
Proof.
  unfold perspective_step. cbn [py_get obind].
  destruct (py_title _) as [t|e] eqn:E; cbn [obind].
  - right. now eexists.
  - left. unfold py_title in E. destruct (dict_get p _ _); try discriminate;
      now injection E as <-.
Qed.

Lemma perspectives_loop_not_text ps : forall image_context,
  Exists (fun p => ~ type_is_text p) ps ->
  perspectives_loop image_context (map VDict ps) = Exc AttributeError.
Proof.
  induction ps as [|p ps IH]; intros image_context H; [inversion H|].
  cbn [map perspectives_loop].
  destruct (perspective_step_dict_cases image_context p) as [E | [r E]].
  - now rewrite E.
  - rewrite E. cbn [obind]. inversion H as [? ? Hp | ? ? Hps]; subst.
    + rewrite perspective_step_not_text in E by exact Hp. discriminate.
    + now apply IH.
Qed.

(** X6: a perspective record whose [perspective_type] is present and
    not a string (null, a number) makes the compose step raise
    [AttributeError]: the placeholder stands in for a lacking type
    only. *)
Theorem compose_prompt_type_not_text q d imgs ps s :
  dict_lookup (u "images") d = Some (VList imgs) ->
  imgs <> [] ->
  dict_lookup (u "search_perspectives") d = Some (VList (map VDict ps)) ->
  Exists (fun p => ~ type_is_text p) ps ->
  compose_prompt q (Some d) = Exc AttributeError /\
  get_text_response_with_images q (Some d) s = (Exc AttributeError, s).
Proof.
  intros Hi Hne Hp Hex.
  assert (E : compose_prompt q (Some d) = Exc AttributeError).
  { unfold compose_prompt. rewrite (no_images_false _ Hi Hne).
    unfold image_context_of.
    rewrite (dict_get_present _ _ _ Hi), (dict_get_present _ _ _ Hp).
    cbn [py_len obind py_iter].
    now rewrite perspectives_loop_not_text by exact Hex. }
  split; [exact E | now apply compose_prompt_raises_no_call].
Qed.

(* ================================================================ *)
(** ** Further behaviour of the orchestration *)

Lemma should_search_images_stdout q s r s' :
  should_search_images q s = (r, s') -> stdout s' = stdout s.
Proof. rewrite should_search_images_run. now intros [= _ <-]. Qed.

Lemma search_images_stdout q max_results s r s' :
  search_images q max_results s = (r, s') -> stdout s' = stdout s.
Proof.
  unfold search_images, bind, remote, lift.
  destruct (actor_call _ _ (world s)) as [[run|e] w1]; [|now intros [= _ <-]].
  destruct (py_subscript run _) as [dataset_id|e]; [|now intros [= _ <-]].
  cbn [world called].
  destruct (dataset_iterate_items dataset_id w1) as [[items|e] w2];
    now intros [= _ <-].
Qed.

Lemma get_text_response_stdout q images_data s r s' :
  get_text_response_with_images q images_data s = (r, s') -> stdout s' = stdout s.
Proof.
  rewrite get_text_response_run.
  destruct (compose_prompt q images_data); now intros [= _ <-].
Qed.

(** X7: when the search record has [search_perspectives] present as
    [None], a boolean or a number, [process_query] raises [TypeError]
    while it prints its progress line, right after the search: the
    compose call is never made.  The compose step on its own accepts
    such a record when it has no images. *)
Theorem unsized_perspectives_stop_process_query q s s1 found s2 v :
  should_search_images q s = (Ok true, s1) ->
  search_images q 10 s1 = (Ok found, s2) ->
  dict_lookup (u "search_perspectives") found = Some v ->
  scalar v ->
  (exists s',
      process_query q s = (Exc TypeError, s') /\
      world s' = world s2 /\ calls s' = calls s2) /\
  (dict_lookup (u "images") found = None ->
   compose_prompt q (Some found) = Ok (plain_prompt q)).
Proof.
  intros Hc Hs Hp Hv. split.
  - rewrite process_query_steps, Hc, Hs, (dict_get_present _ _ _ Hp).
    destruct v; try contradiction; cbn [py_len]; now eexists.
  - intros Hi. apply no_images_plain. unfold no_images, dict_get. rewrite Hi.
    apply orb_true_r.
Qed.

(** X8: what a successful [process_query] prints: three lines on the
    text-only path; five when images were searched, the fourth
    reporting the record's [total_results] (0 when absent) and the
    number of perspectives, whatever the number of images. *)
Theorem process_query_console q s r s' :
  process_query q s = (Ok r, s') ->
  (forall s1,
      should_search_images q s = (Ok false, s1) ->
      stdout s' = stdout s ++ [msg_processing q; msg_analysis false; msg_generating]) /\
  (forall s1 found s2,
      should_search_images q s = (Ok true, s1) ->
      search_images q 10 s1 = (Ok found, s2) ->
      exists n,
        py_len (dict_get found (u "search_perspectives") (VList [])) = Ok n /\
        stdout s' = stdout s ++
          [msg_processing q; msg_analysis true; msg_searching;
           msg_found (dict_get found (u "total_results") (VInt 0)) n;
           msg_generating]).
Proof.
  intros H. rewrite process_query_steps in H. split.
  - intros s1 Hc. rewrite Hc in H.
    apply compose_and_assemble_ok in H as [text [s3 [Hg [-> _]]]].
    cbn [stdout printed].
    apply get_text_response_stdout in Hg. apply should_search_images_stdout in Hc.
    now rewrite Hg, Hc.
  - intros s1 found s2 Hc Hs. rewrite Hc, Hs in H.
    destruct (py_len _) as [n|e]; [|discriminate]. exists n. split; [reflexivity|].
    apply compose_and_assemble_ok in H as [text [s3 [Hg [-> _]]]].
    cbn [stdout printed].
    apply get_text_response_stdout in Hg. apply search_images_stdout in Hs.
    apply should_search_images_stdout in Hc. now rewrite Hg, Hs, Hc.
Qed.

(** X9: the result of [process_query] carries the query it was given,
    and its text is the content of the chat model's reply to the last
    call made, unchanged. *)
Theorem process_query_text_verbatim q s r s' :
  process_query q s = (Ok r, s') ->
  query r = q /\
  exists prompt before response,
    calls s' = calls before ++ [CInvoke prompt] /\
    llm_invoke prompt (world before) = (Ok response, world s') /\
    text_response r = content response.
Proof.
  intros H. rewrite process_query_steps in H.
  assert (G : forall d lines s0,
             compose_and_assemble q d lines s0 = (Ok r, s') ->
             query r = q /\
             exists prompt before response,
               calls s' = calls before ++ [CInvoke prompt] /\
               llm_invoke prompt (world before) = (Ok response, world s') /\
               text_response r = content response).
  { intros d lines s0 Hc.
    apply compose_and_assemble_ok in Hc as [text [s3 [Hg [-> ->]]]].
    split; [reflexivity|]. rewrite get_text_response_run in Hg.
    destruct (compose_prompt q (Some d)) as [prompt|e]; [|discriminate].
    destruct (llm_invoke prompt (world s0)) as [[response|e] w] eqn:El;
      cbn [fst snd omap] in Hg; [|discriminate].
    injection Hg as <- <-. exists prompt, s0, response.
    cbn [calls world printed called text_response]. now rewrite El. }
  destruct (should_search_images q s) as [[[|]|e] s1]; [| |discriminate].
  - destruct (search_images q 10 s1) as [[found|e] s2]; [|discriminate].
    destruct (py_len _) as [n|e]; [|discriminate]. now apply G in H.
  - now apply G in H.
Qed.

(* ================================================================ *)
(** ** The demonstration *)

Lemma printed_nil s : printed [] s = s.
Proof. destruct s. unfold printed; simpl. now rewrite app_nil_r. Qed.

Lemma demo_image_step_dict i img s :
  title_is_text img ->
  demo_image_step i (VDict img) s = (Ok tt, printed (spec_demo_image_lines i img) s).
Proof.
  unfold title_is_text, demo_image_step, spec_demo_image_lines, shown_title.
  unfold bind, lift, print. cbn [py_get]. rewrite <- shown_get.
  unfold dict_get at 1.
  destruct (dict_lookup (u "title") img) as [[]|]; try contradiction; intros _;
    cbn [py_slice py_str]; now rewrite printed_printed.
Qed.

Lemma demo_images_loop_dicts imgs : forall i s,
  Forall title_is_text imgs ->
  demo_images_loop i (map VDict imgs) s = (Ok tt, printed (spec_demo_images i imgs) s).
Proof.
  induction imgs as [|img imgs IH]; intros i s H;
    cbn [map demo_images_loop spec_demo_images].
  - now rewrite printed_nil.
  - inversion H as [|? ? Himg Himgs]; subst. unfold bind.
    rewrite demo_image_step_dict by exact Himg.
    rewrite IH by exact Himgs. now rewrite printed_printed.
Qed.

Lemma demo_perspectives_loop_dicts ps : forall s,
  demo_perspectives_loop (map VDict ps) s
  = (Ok tt, printed (map spec_demo_perspective_line ps) s).
Proof.
  induction ps as [|p ps IH]; intros s; cbn [map demo_perspectives_loop].
  - now rewrite printed_nil.
  - unfold bind at 1. unfold demo_perspective_step, bind, lift, print.
    cbn [py_get]. rewrite IH, printed_printed, !shown_get. reflexivity.
Qed.

Lemma spec_demo_images_length imgs : forall i,
  List.length (spec_demo_images i imgs) = 2 * List.length imgs.
Proof.
  induction imgs as [|img imgs IH]; intros i; [reflexivity|].
  cbn [spec_demo_images spec_demo_image_lines app List.length].
  rewrite IH. lia.
Qed.

(** X10: [demo] lists the first three images of a result and no more,
    two lines each: the title cut to fifty characters (Untitled when
    lacking) and always followed by three dots, then the link (N/A when
    lacking).  All perspectives are listed, their type as it is (not
    title-cased). *)
Theorem demo_show_three_images result imgs ps s :
  images result = VList (map VDict imgs) ->
  Forall title_is_text (firstn 3 imgs) ->
  perspectives result = VList (map VDict ps) ->
  demo_show result s
  = (Ok tt,
     printed ([demo_msg_text result; text_response result]
                ++ (if nonempty imgs
                    then demo_msg_images result :: spec_demo_images 0 (firstn 3 imgs)
                    else [])
                ++ (if nonempty ps
                    then demo_msg_perspectives :: map spec_demo_perspective_line ps
                    else [])
                ++ [demo_separator]) s) /\
  List.length (spec_demo_images 0 (firstn 3 imgs)) = 2 * Nat.min 3 (List.length imgs).
Proof.
  intros Hi Ht Hp. split.
  - unfold demo_show. rewrite Hi, Hp.
    unfold bind at 1. unfold print at 1.
    unfold bind at 1. unfold print at 1. rewrite printed_printed.
    unfold bind at 1.
    assert (Himgs :
      (if truthy (VList (map VDict imgs))
       then print (demo_msg_images result) ;;;
            first3 <- lift (py_slice 3 (VList (map VDict imgs))) ;;
            items <- lift (py_iter first3) ;; demo_images_loop 0 items
       else ret tt) (printed ([demo_msg_text result] ++ [text_response result]) s)
      = (Ok tt,
         printed ([demo_msg_text result; text_response result]
                    ++ (if nonempty imgs
                        then demo_msg_images result :: spec_demo_images 0 (firstn 3 imgs)
                        else [])) s)).
    { destruct imgs as [|img imgs']; [reflexivity|].
      cbn [truthy nonempty map]. unfold bind at 1. unfold print at 1.
      rewrite printed_printed. unfold bind, lift. cbn [py_slice py_iter].
      change (VDict img :: map VDict imgs') with (map VDict (img :: imgs')).
      rewrite map_VDict_firstn, demo_images_loop_dicts by exact Ht.
      now rewrite printed_printed. }
    rewrite Himgs. unfold bind at 1.
    destruct ps as [|p ps'].
    + cbn [truthy nonempty map]. unfold ret at 1. unfold print.
      rewrite printed_printed. now rewrite <- !app_assoc.
    + cbn [truthy nonempty map]. unfold bind at 1. unfold print at 1.
      rewrite printed_printed. unfold bind at 1. unfold lift at 1. cbn [py_iter].
      change (VDict p :: map VDict ps') with (map VDict (p :: ps')).
      rewrite demo_perspectives_loop_dicts, printed_printed. unfold print.
      rewrite printed_printed. now rewrite <- !app_assoc.
  - rewrite spec_demo_images_length, length_firstn. reflexivity.
Qed.

(** X11: an image title that is a number, a boolean or null stops
    [demo] with [TypeError] at the cut of the title, after the header
    lines, although the compose step renders the same record. *)
Theorem demo_show_title_not_text result img rest v s :
  images result = VList (VDict img :: rest) ->
  dict_lookup (u "title") img = Some v ->
  scalar v ->
  demo_show result s
  = (Exc TypeError,
     printed [demo_msg_text result; text_response result; demo_msg_images result] s) /\
  forall image_context i,
    image_step image_context i (VDict img)
    = Ok (image_context ++ spec_image_entry i img).
Proof.
  intros Hi Ht Hv. split; [|intros; apply image_step_dict].
  unfold demo_show. rewrite Hi.
  unfold bind at 1. unfold print at 1.
  unfold bind at 1. unfold print at 1. rewrite printed_printed.
  unfold bind at 1. cbn [truthy nonempty].
  unfold bind at 1. unfold print at 1. rewrite printed_printed.
  unfold bind at 1. unfold lift at 1. cbn [py_slice firstn].
  unfold bind at 1. unfold lift at 1. cbn [py_iter demo_images_loop].
  unfold bind at 1. unfold demo_image_step. unfold bind at 1. unfold lift at 1.
  cbn [py_get]. rewrite (dict_get_present _ _ _ Ht).
  unfold bind at 1. unfold lift at 1.
  destruct v; try contradiction; reflexivity.
Qed.

Lemma demo_loop_app qs1 : forall qs2 s,
  demo_loop (qs1 ++ qs2) s = (demo_loop qs1 ;;; demo_loop qs2) s.
Proof.
  induction qs1 as [|q qs1 IH]; intros qs2 s; [reflexivity|].
  cbn [app demo_loop]. unfold bind.
  destruct (process_query q s) as [[result|e] s1]; [|reflexivity].
  destruct (demo_show result s1) as [[[]|e] s2]; [|reflexivity].
  destruct (local _ s2) as [[line|e] s3]; [|reflexivity].
  rewrite IH. reflexivity.
Qed.

(** X12: [demo] has no exception handler: when [process_query] raises
    on one query, the loop ends there with that exception, and the
    queries after it are not processed. *)
Theorem demo_loop_stops_at_failure qs1 q qs2 s s1 e s2 :
  demo_loop qs1 s = (Ok tt, s1) ->
  process_query q s1 = (Exc e, s2) ->
  demo_loop (qs1 ++ q :: qs2) s = (Exc e, s2).
Proof.
  intros H1 Hq. rewrite demo_loop_app. unfold bind at 1. rewrite H1.
  cbn [demo_loop]. unfold bind at 1. now rewrite Hq.
Qed.

Lemma occurs_in_right needle before hay :
  occurs_in needle hay -> occurs_in needle (before ++ hay).
Proof.
  intros [b [a ->]]. exists (before ++ b), a. now rewrite <- app_assoc.
Qed.

(** X13: the classification prompt spells out YES itself, so a reply
    that repeats the prompt, whatever else it says, is classified as
    needing images. *)
Theorem echoed_prompt_needs_images q s response w' :
  llm_invoke (classify_prompt q) (world s) = (Ok response, w') ->
  occurs_in (classify_prompt q) (content response) ->
  fst (should_search_images q s) = Ok true.
Proof.
  intros H [before [after Hc]].
  rewrite should_search_images_run, H. cbn [fst omap]. f_equal.
  apply py_in_spec. rewrite Hc, !str_upper_app. apply occurs_in_right.
  unfold classify_prompt. rewrite !str_upper_app, <- !app_assoc.
  repeat match goal with
         | |- occurs_in _ (?piece ++ _) =>
             lazymatch piece with
             | str_upper (u "YES") => fail
             | _ => apply occurs_in_right
             end
         end.
  eexists [], _. reflexivity.
Qed.

(** X14: a search that comes back empty (no dataset record, or an
    empty first record) leaves the same result as a text-only query:
    not image-aware, no images, no perspectives, total 0, and the text
    is the reply to the plain prompt. *)
Theorem empty_search_is_text_only q s s1 s2 response w3 :
  should_search_images q s = (Ok true, s1) ->
  search_images q 10 s1 = (Ok [], s2) ->
  llm_invoke (plain_prompt q) (world s2) = (Ok response, w3) ->
  exists s',
    process_query q s
    = (Ok {| query := q;
             text_response := content response;
             images := VList [];
             total_images := VInt 0;
             perspectives := VList [];
             image_aware_response := false |}, s') /\
    world s' = w3 /\
    calls s' = calls s2 ++ [CInvoke (plain_prompt q)].
Proof.
  intros Hc Hs Hl. rewrite process_query_steps, Hc, Hs.
  cbn [dict_get dict_lookup py_len]. unfold compose_and_assemble.
  rewrite get_text_response_run.
  cbn [compose_prompt no_images nonempty negb orb]. rewrite Hl.
  cbn [fst snd omap]. eexists. split; [reflexivity|]. split; reflexivity.
Qed.

End Assistant.

(* ================================================================== *)
(** ** The theorems at work on the test doubles *)

(** The classification of a model that says "Yes, absolutely", and of one
    that says "No.". *)
Lemma should_search_images_iff_yes_witness :
  fst (should_search_images Double.upper (Double.llm (u "Yes, absolutely"))
         Double.tesla Double.s0) = Ok true /\
  fst (should_search_images Double.upper (Double.llm (u "No."))
         Double.tesla Double.s0) = Ok false.
Proof.
  split.
  - destruct (@should_search_images_iff_yes Double.upper _
                (Double.llm (u "Yes, absolutely")) Double.tesla Double.s0 _ _ eq_refl)
      as [b [E [_ [Hyes _]]]].
    rewrite E. cbn [fst]. f_equal. apply Hyes. exists [], []. reflexivity.
  - destruct (@should_search_images_iff_yes Double.upper _
                (Double.llm (u "No.")) Double.tesla Double.s0 _ _ eq_refl)
      as [b [E [_ [_ Hno]]]].
    rewrite E. cbn [fst]. f_equal. apply Hno. reflexivity.
Defined.

(** A query the model classifies as text only. *)
Lemma image_aware_iff_search_result_witness :
  exists r s',
    process_query Double.upper Double.title Double.repr (Double.llm (u "NO"))
      Double.actor (Double.dataset []) Double.tesla Double.s0 = (Ok r, s') /\
    image_aware_response r = false /\
    images r = VList [] /\ perspectives r = VList [] /\ total_images r = VInt 0.
Proof.
  eexists _, _. split; [reflexivity|].
  destruct (@image_aware_iff_search_result Double.upper Double.title Double.repr _
              (Double.llm (u "NO")) Double.actor (Double.dataset [])
              Double.tesla Double.s0 _ _ eq_refl) as [_ [Hfalse Hno]].
  assert (Hf := Hno _ eq_refl). split; [exact Hf | exact (Hfalse Hf)].
Defined.

(** Seven results reported, two perspectives, one image object. *)
Lemma process_query_mirrors_search_witness :
  exists r s' imgs ps,
    process_query Double.upper Double.title Double.repr (Double.llm (u "YES"))
      Double.actor (Double.dataset [Double.seven]) Double.tesla Double.s0 = (Ok r, s') /\
    image_aware_response r = true /\
    total_images r = VInt 7 /\
    perspectives r = VList ps /\ List.length ps = 2 /\
    images r = VList imgs /\ List.length imgs = 1.
Proof.
  assert (Hne : Double.seven <> []) by discriminate.
  destruct (@process_query_mirrors_search Double.upper Double.title Double.repr _
              (Double.llm (u "YES")) Double.actor (Double.dataset [Double.seven])
              Double.tesla Double.s0 _ _ _ eq_refl eq_refl Hne) as [Hmirror Hreturns].
  destruct (Hreturns _ _ _ eq_refl eq_refl) as [r [s' [E _]]].
  destruct (Hmirror r s' E) as [Ha [Hi [Hp [Ht _]]]].
  exists r, s'. eexists _, _. split; [exact E|]. split; [exact Ha|].
  split; [exact Ht|]. split; [exact Hp|]. split; [reflexivity|].
  split; [exact Hi | reflexivity].
Defined.

(** Twelve images, five entries. *)
Lemma compose_prompt_five_entries_witness :
  exists prompt entries,
    compose_prompt Double.title Double.repr Double.tesla (Some Double.twelve) = Ok prompt /\
    List.length entries = 5 /\
    occurs_in (nl ++ u "IMAGE DETAILS FOUND:" ++ nl ++ List.concat entries) prompt /\
    py_in (u "5. Title: ") prompt = true /\
    py_in (u "6. Title: ") prompt = false.
Proof.
  destruct (@compose_prompt_five_entries Double.title Double.repr Double.tesla
              Double.twelve _ _ eq_refl eq_refl)
    as [[Hnone _] | [ps [shown5 [entries [_ [_ [_ [_ [_ [Hfive [_ Hp]]]]]]]]]]];
    [discriminate Hnone|].
  eexists _, entries. split; [reflexivity|].
  split; [apply Hfive; apply Nat.leb_le; reflexivity|].
  split; [eexists _, _; exact Hp|].
  split; vm_compute; reflexivity.
Defined.

(** The empty dictionary and [None]. *)
Lemma plain_prompt_without_images_witness :
  compose_prompt Double.title Double.repr Double.tesla (Some [])
  = Ok (u "Answer this query comprehensively: 'Tesla Model Y interior'") /\
  compose_prompt Double.title Double.repr Double.tesla None
  = Ok (u "Answer this query comprehensively: 'Tesla Model Y interior'").
Proof.
  split.
  - exact (proj1 (@plain_prompt_without_images Double.title Double.repr _
                    (Double.llm (u "NO")) Double.tesla (Some []) Double.s0
                    (or_intror (or_introl eq_refl)))).
  - exact (proj1 (@plain_prompt_without_images Double.title Double.repr _
                    (Double.llm (u "NO")) Double.tesla None Double.s0
                    (or_introl eq_refl))).
Defined.

(** An empty dataset, and a dataset of two records. *)
Lemma search_images_first_record_witness :
  fst (search_images Double.actor (Double.dataset []) Double.tesla 10 Double.s0) = Ok [] /\
  fst (search_images Double.actor (Double.dataset [Double.seven; Double.twelve])
         Double.tesla 10 Double.s0) = Ok Double.seven.
Proof.
  split.
  - exact (proj1 (proj2 (@search_images_first_record Double.title Double.repr _
                           (Double.llm (u "YES")) Double.actor (Double.dataset [])
                           Double.tesla 10 Double.s0 _ _ _ _ _
                           eq_refl eq_refl eq_refl) eq_refl)).
  - exact (f_equal fst
             (proj1 (@search_images_first_record Double.title Double.repr _
                       (Double.llm (u "YES")) Double.actor
                       (Double.dataset [Double.seven; Double.twelve])
                       Double.tesla 10 Double.s0 _ _ _ _ _
                       eq_refl eq_refl eq_refl))).
Defined.

(** Eleven bare image records and a bare perspective record. *)
Lemma compose_prompt_placeholders_witness :
  exists prompt,
    compose_prompt Double.title Double.repr Double.tesla (Some Double.twelve) = Ok prompt /\
    py_in (u "2. Title: Untitled") prompt = true /\
    py_in (bullet ++ u " Unknown: 'N/A' (0 images)") prompt = true.
Proof.
  eexists. split.
  - apply (@compose_prompt_placeholders Double.title Double.repr Double.tesla
             Double.twelve (Double.image_record (u "Dashboard") :: repeat [] 11) [[]]).
    + reflexivity.
    + discriminate.
    + reflexivity.
    + constructor; [exact I | constructor].
  - split; vm_compute; reflexivity.
Defined.


(** A search record that carries only [agent_response]. *)
Lemma image_aware_without_images_witness :
  exists r s',
    process_query Double.upper Double.title Double.repr (Double.llm (u "YES"))
      Double.actor (Double.dataset [Double.summary_only]) Double.tesla Double.s0
    = (Ok r, s') /\
    image_aware_response r = true /\
    images r = VList [] /\
    text_response r = plain_prompt Double.tesla.
Proof.
  assert (Hne : Double.summary_only <> []) by discriminate.
  destruct (@image_aware_without_images Double.upper Double.title Double.repr _
              (Double.llm (u "YES")) Double.actor (Double.dataset [Double.summary_only])
              Double.tesla Double.s0 _ _ _ _ _ _
              eq_refl eq_refl Hne (or_introl eq_refl) eq_refl eq_refl)
    as [r [s' [E [Ha [Hi [Ht _]]]]]].
  exists r, s'. split; [exact E|]. split; [exact Ha|]. split; [exact Hi|].
  rewrite Ht. reflexivity.
Defined.

(* ================================================================== *)
(** ** The search collaborator on the text-only path *)

(** X15: unless the classification returned true, the outcome and the
    final state of [process_query] are the same whatever actor and
    dataset stand behind the assistant: the search collaborator has no
    part in a text-only answer. *)
Theorem text_only_ignores_search
    (unicode_upper : N -> pystr) (unicode_title : pystr -> pystr)
    (repr_other : pyval -> pystr) (World : Type)
    (llm_invoke : pystr -> World -> outcome AIMessage * World)
    (actor1 actor2 : pystr -> run_input -> World -> outcome pyval * World)
    (dataset1 dataset2 : pyval -> World -> outcome (list pydict) * World)
    (q : pystr) (s : State World) :
  fst (should_search_images unicode_upper llm_invoke q s) <> Ok true ->
  process_query unicode_upper unicode_title repr_other llm_invoke actor1 dataset1 q s
  = process_query unicode_upper unicode_title repr_other llm_invoke actor2 dataset2 q s.
Proof.
  intros H. rewrite !process_query_steps.
  destruct (should_search_images unicode_upper llm_invoke q s) as [[[|]|e] s1];
    [now contradiction H | reflexivity | reflexivity].
Qed.

(* ================================================================== *)
(** ** The further results at work on the test doubles *)

(** An answer that ends in a mixed-case yes. *)
Lemma should_search_images_any_case_witness :
  fst (should_search_images Double.upper (Double.llm (u "I guess so, yEs"))
         Double.tesla Double.s0) = Ok true.
Proof.
  destruct (@should_search_images_any_case Double.upper _
              (Double.llm (u "I guess so, yEs")) Double.tesla Double.s0 _ _
              eq_refl eq_refl) as [b [E Hb]].
  rewrite E. f_equal. apply Hb.
  exists (u "I guess so, "), 121%N, 69%N, 115%N, []. repeat split; auto.
Defined.

(** An actor call that hands back no run. *)
Lemma search_images_without_dataset_witness :
  fst (search_images Double.actor_none (Double.dataset [Double.seven])
         Double.tesla 10 Double.s0) = Exc TypeError.
Proof.
  destruct (@search_images_without_dataset _ Double.actor_none
              (Double.dataset [Double.seven]) Double.tesla 10 Double.s0 _ _
              eq_refl (or_introl eq_refl)) as [e [E [Hnone _]]].
  rewrite E, (Hnone eq_refl). reflexivity.
Defined.

(** Twelve records, and five records followed by seven nulls. *)
Lemma compose_prompt_first_five_witness :
  compose_prompt Double.title Double.repr Double.tesla (Some Double.twelve)
  = compose_prompt Double.title Double.repr Double.tesla (Some Double.twelve_odd).
Proof.
  exact (@compose_prompt_first_five Double.title Double.repr Double.tesla
           Double.twelve Double.twelve_odd _ _ eq_refl eq_refl eq_refl eq_refl eq_refl).
Defined.

(** A string where the second image should be. *)
Lemma malformed_image_stops_compose_witness :
  exists e,
    get_text_response_with_images Double.title Double.repr (Double.llm (u "YES"))
      Double.tesla (Some Double.broken) Double.s0 = (Exc e, Double.s0).
Proof.
  destruct (@malformed_image_stops_compose Double.title Double.repr _
              (Double.llm (u "YES")) Double.tesla Double.broken _ 1 _ Double.s0
              eq_refl eq_refl (le_S _ _ (le_S _ _ (le_S _ _ (le_n 2))))
              (fun H => H)) as [e [_ E]].
  exists e. exact E.
Defined.

(** [images] is the number 3. *)
Lemma compose_prompt_unsized_witness :
  compose_prompt Double.title Double.repr Double.tesla (Some Double.images_count)
  = Exc TypeError.
Proof.
  apply (@compose_prompt_unsized Double.title Double.repr _ (Double.llm (u "YES"))
           Double.tesla Double.images_count Double.s0).
  left. exists (VInt 3). split; [reflexivity|]. split; [exact I | reflexivity].
Defined.

(** A perspective whose type is null. *)
Lemma compose_prompt_type_not_text_witness :
  compose_prompt Double.title Double.repr Double.tesla (Some Double.null_type)
  = Exc AttributeError.
Proof.
  apply (@compose_prompt_type_not_text Double.title Double.repr _ (Double.llm (u "YES"))
           Double.tesla Double.null_type [VDict []]
           [[(u "perspective_type", VNone)]] Double.s0).
  - reflexivity.
  - discriminate.
  - reflexivity.
  - constructor. intros H. exact H.
Defined.

(** A search record whose perspectives are null. *)
Lemma unsized_perspectives_stop_process_query_witness :
  exists s',
    process_query Double.upper Double.title Double.repr (Double.llm (u "YES"))
      Double.actor (Double.dataset [Double.null_perspectives]) Double.tesla Double.s0
    = (Exc TypeError, s') /\
    List.length (calls s') = 3.
Proof.
  destruct (@unsized_perspectives_stop_process_query Double.upper Double.title
              Double.repr _ (Double.llm (u "YES")) Double.actor
              (Double.dataset [Double.null_perspectives]) Double.tesla Double.s0
              _ _ _ _ eq_refl eq_refl eq_refl I) as [[s' [E [_ Hc]]] _].
  exists s'. split; [exact E|]. rewrite Hc. reflexivity.
Defined.

(** The console of a text-only run and of a run with images. *)
Lemma process_query_console_witness :
  List.length (stdout (snd (process_query Double.upper Double.title Double.repr
                              (Double.llm (u "NO")) Double.actor (Double.dataset [])
                              Double.tesla Double.s0))) = 3 /\
  List.length (stdout (snd (process_query Double.upper Double.title Double.repr
                              (Double.llm (u "YES")) Double.actor
                              (Double.dataset [Double.seven])
                              Double.tesla Double.s0))) = 5.
Proof.
  split.
  - etransitivity; [apply (f_equal (@List.length pystr))|].
    + exact (proj1 (@process_query_console Double.upper Double.title Double.repr _
                      (Double.llm (u "NO")) Double.actor (Double.dataset [])
                      Double.tesla Double.s0 _ _ eq_refl) _ eq_refl).
    + reflexivity.
  - destruct (proj2 (@process_query_console Double.upper Double.title Double.repr _
                       (Double.llm (u "YES")) Double.actor (Double.dataset [Double.seven])
                       Double.tesla Double.s0 _ _ eq_refl) _ _ _ eq_refl eq_refl)
      as [n [_ E]].
    etransitivity; [apply (f_equal (@List.length pystr)); exact E | reflexivity].
Defined.

(** The echoing model: the text is the plain prompt it was sent. *)
Lemma process_query_text_verbatim_witness :
  exists r s',
    process_query Double.upper Double.title Double.repr (Double.llm (u "NO"))
      Double.actor (Double.dataset []) Double.tesla Double.s0 = (Ok r, s') /\
    query r = Double.tesla.
Proof.
  eexists _, _. split; [reflexivity|].
  exact (proj1 (@process_query_text_verbatim Double.upper Double.title Double.repr _
                  (Double.llm (u "NO")) Double.actor (Double.dataset [])
                  Double.tesla Double.s0 _ _ eq_refl)).
Defined.

(** Four images: six image lines. *)
Lemma demo_show_three_images_witness :
  List.length (stdout (snd (demo_show Double.repr Double.four_images Double.s0))) = 12.
Proof.
  assert (Ht : Forall title_is_text
                 (firstn 3 (Double.image_record (u "Dashboard") :: repeat [] 3)))
    by (repeat constructor).
  exact (f_equal (fun r => List.length (stdout (snd r)))
           (proj1 (@demo_show_three_images Double.repr _ Double.four_images
                     (Double.image_record (u "Dashboard") :: repeat [] 3)
                     [[(u "perspective_type", VStr (u "close_up"))]] Double.s0
                     eq_refl Ht eq_refl))).
Defined.

(** The title 42. *)
Lemma demo_show_title_not_text_witness :
  fst (demo_show Double.repr Double.numbered_title Double.s0) = Exc TypeError.
Proof.
  exact (f_equal fst
           (proj1 (@demo_show_title_not_text Double.repr _ Double.numbered_title
                     _ _ _ Double.s0 eq_refl eq_refl I))).
Defined.

(** The model goes away before the second query of the demonstration. *)
Lemma demo_loop_stops_at_failure_witness :
  fst (demo_loop Double.upper Double.title Double.repr Double.llm_down
         Double.actor (Double.dataset []) Double.enter
         [u "What is machine learning?"; u "Tesla Model Y interior dashboard"]
         Double.s0)
  = Exc (UpstreamError (u "llm unavailable")).
Proof.
  exact (f_equal fst
           (@demo_loop_stops_at_failure Double.upper Double.title Double.repr _
              Double.llm_down Double.actor (Double.dataset []) Double.enter
              [] (u "What is machine learning?") [u "Tesla Model Y interior dashboard"]
              Double.s0 _ _ _ eq_refl eq_refl)).
Defined.

(** A text-only query with a working and with a failing actor. *)
Lemma text_only_ignores_search_witness :
  process_query Double.upper Double.title Double.repr (Double.llm (u "NO"))
    Double.actor (Double.dataset [Double.seven]) Double.tesla Double.s0
  = process_query Double.upper Double.title Double.repr (Double.llm (u "NO"))
      Double.actor_down Double.dataset_down Double.tesla Double.s0.
Proof.
  apply text_only_ignores_search. discriminate.
Defined.

(** The parrot answers the classification prompt with the prompt. *)
Lemma echoed_prompt_needs_images_witness :
  fst (should_search_images Double.upper Double.parrot Double.tesla Double.s0) = Ok true.
Proof.
  apply (@echoed_prompt_needs_images Double.upper _ Double.parrot Double.tesla
           Double.s0 _ _ eq_refl).
  exists [], []. cbn [content app]. now rewrite app_nil_r.
Defined.

(** Images wanted, an empty dataset. *)
Lemma empty_search_is_text_only_witness :
  exists r s',
    process_query Double.upper Double.title Double.repr (Double.llm (u "YES"))
      Double.actor (Double.dataset []) Double.tesla Double.s0 = (Ok r, s') /\
    image_aware_response r = false /\
    List.length (calls s') = 4.
Proof.
  destruct (@empty_search_is_text_only Double.upper Double.title Double.repr _
              (Double.llm (u "YES")) Double.actor (Double.dataset [])
              Double.tesla Double.s0 _ _ _ _ eq_refl eq_refl eq_refl)
    as [s' [E [_ Hc]]].
  eexists _, s'. split; [exact E|]. split; [reflexivity|]. rewrite Hc. reflexivity.
Defined.
